(** * trackbias_scanner: the race-result scraper (src/scraper.py)

    A shallow embedding of [scraper.py] and the properties of its
    specification.  Python [str] values are sequences of Unicode code
    points; dictionaries are finite maps; the browser-automation engine is
    an object whose calls either return or raise. *)

From Stdlib Require Import NArith Ascii String Bool Lia.
From stdpp Require Import base option list gmap strings.

Open Scope N_scope.

(** ** Python strings *)

(** A Python [str] is a sequence of code points. *)
Abbreviation pystr := (list N).

(** Source literals are UTF-8 text; [py] reads one as a [str]. *)
Fixpoint utf8_decode (bs : list N) : pystr :=
  match bs with
  | [] => []
  | b :: r =>
      if b <? 128 then b :: utf8_decode r
      else if b <? 224 then
        match r with
        | c1 :: r1 => ((b - 192) * 64 + (c1 - 128)) :: utf8_decode r1
        | _ => []
        end
      else if b <? 240 then
        match r with
        | c1 :: c2 :: r2 =>
            ((b - 224) * 4096 + (c1 - 128) * 64 + (c2 - 128)) :: utf8_decode r2
        | _ => []
        end
      else
        match r with
        | c1 :: c2 :: c3 :: r3 =>
            ((b - 240) * 262144 + (c1 - 128) * 4096 + (c2 - 128) * 64 + (c3 - 128))
              :: utf8_decode r3
        | _ => []
        end
  end.

Definition py (s : string) : pystr :=
  utf8_decode (map N_of_ascii (list_ascii_of_string s)).

Definition chr (a : ascii) : N := N_of_ascii a.

(** The empty string. *)
Definition empty_str : pystr := [].

(** [s.startswith(p)] *)
Fixpoint startswith (p s : pystr) : bool :=
  match p, s with
  | [], _ => true
  | _ :: _, [] => false
  | a :: p', b :: s' => (a =? b) && startswith p' s'
  end.

(** [p in s] for strings: [p] occurs as a contiguous run of [s]. *)
Fixpoint contains (p s : pystr) : bool :=
  startswith p s ||
  match s with
  | [] => false
  | _ :: s' => contains p s'
  end.

(** [c in s] for a single character. *)
Definition has_char (c : N) (s : pystr) : bool := existsb (N.eqb c) s.

(** [s in l] for a list of strings. *)
Definition str_in (s : pystr) (l : list pystr) : bool :=
  bool_decide (s ∈ l).

(** [s.partition(c)]: the text before the first [c] and the text after it,
    when [c] occurs. *)
Fixpoint split_first (c : N) (s : pystr) : option (pystr * pystr) :=
  match s with
  | [] => None
  | a :: r =>
      if a =? c then Some ([], r)
      else match split_first c r with
           | Some (u, v) => Some (a :: u, v)
           | None => None
           end
  end.

(** [s.rpartition(c)]: split at the last [c]. *)
Fixpoint split_last (c : N) (s : pystr) : option (pystr * pystr) :=
  match s with
  | [] => None
  | a :: r =>
      match split_last c r with
      | Some (u, v) => Some (a :: u, v)
      | None => if a =? c then Some ([], r) else None
      end
  end.

(** [s.split(c)] for a one-character separator. *)
Fixpoint split_on (c : N) (s : pystr) : list pystr :=
  match s with
  | [] => [[]]
  | a :: r =>
      if a =? c then [] :: split_on c r
      else match split_on c r with
           | h :: t => (a :: h) :: t
           | [] => [[a]]
           end
  end.

(** [s.replace(c, d)] and [s.replace(c, '')] for one-character [c]. *)
Definition replace_char (c d : N) (s : pystr) : pystr :=
  map (fun a => if a =? c then d else a) s.

Definition remove_char (c : N) (s : pystr) : pystr :=
  filter (fun a => a ≠ c) s.

(** [str.isspace] for one character: the characters CPython's
    [_PyUnicode_IsWhitespace] accepts. *)
Definition isspace (c : N) : bool :=
  ((9 <=? c) && (c <=? 13)) || ((28 <=? c) && (c <=? 32)) ||
  (c =? 133) || (c =? 160) || (c =? 5760) ||
  ((8192 <=? c) && (c <=? 8202)) || (c =? 8232) || (c =? 8233) ||
  (c =? 8239) || (c =? 8287) || (c =? 12288).

Fixpoint lstrip_by (f : N -> bool) (s : pystr) : pystr :=
  match s with
  | [] => []
  | a :: r => if f a then lstrip_by f r else s
  end.

Definition rstrip_by (f : N -> bool) (s : pystr) : pystr :=
  rev (lstrip_by f (rev s)).

(** [s.strip()] *)
Definition strip (s : pystr) : pystr := rstrip_by isspace (lstrip_by isspace s).

Definition is_ascii (c : N) : bool := c <? 128.
Definition ascii_isalpha (c : N) : bool :=
  ((65 <=? c) && (c <=? 90)) || ((97 <=? c) && (c <=? 122)).
Definition ascii_isdigit (c : N) : bool := (48 <=? c) && (c <=? 57).
Definition ascii_lower (c : N) : N :=
  if (65 <=? c) && (c <=? 90) then c + 32 else c.

(** [s.zfill(width)]: pad with ['0'] on the left, after a leading sign. *)
Definition zfill (width : nat) (s : pystr) : pystr :=
  let pad := repeat (chr "0") (width - length s) in
  match s with
  | c :: r => if (c =? chr "+") || (c =? chr "-") then c :: pad ++ r else pad ++ s
  | [] => pad
  end.

(** ** Exceptions *)

(** A raised Python exception: its class and its message. *)
Record exn := Exn { exn_class : string; exn_msg : string }.

Inductive outcome (A : Type) : Type :=
| Ok (a : A)
| Raise (e : exn).
Arguments Ok {A} a.
Arguments Raise {A} e.

#[global] Instance outcome_ret : MRet outcome := fun A a => Ok a.
#[global] Instance outcome_bind : MBind outcome := fun A B f m =>
  match m with
  | Ok a => f a
  | Raise e => Raise e
  end.

#[global] Instance outcome_fmap : FMap outcome := fun A B f m =>
  match m with
  | Ok a => Ok (f a)
  | Raise e => Raise e
  end.

Definition succeeds {A} (m : outcome A) : bool :=
  match m with Ok _ => true | Raise _ => false end.

(** [l[i]]: an out-of-range index raises [IndexError]. *)
Definition index {A} (l : list A) (i : nat) : outcome A :=
  match l !! i with
  | Some a => Ok a
  | None => Raise (Exn "IndexError" "list index out of range")
  end.

(** ** The Python runtime's tables

    What the standard library computes from the Unicode database or from
    other modules is taken from the runtime. *)
Class PythonRuntime := {
  (** [str.isdecimal] of a character: the class [\d] of [re] *)
  str_isdecimal : N -> bool;
  (** [str.isdigit] of a character *)
  str_isdigit : N -> bool;
  (** [unicodedata.normalize('NFKC', s)] *)
  nfkc : pystr -> pystr;
  (** [urllib.parse._check_bracketed_host] returns without raising *)
  bracketed_host_ok : pystr -> bool;
  (** [urllib.parse.unquote] on a string with a ['%'] *)
  unquote_escapes : pystr -> pystr
}.

(** ** urllib.parse, as far as the scraper uses it *)

Module urllib.

Record SplitResult := {
  scheme : pystr;
  netloc : pystr;
  path : pystr;
  query : pystr;
  fragment : pystr
}.

Definition scheme_char (c : N) : bool :=
  ascii_isalpha c || ascii_isdigit c ||
  (c =? chr "+") || (c =? chr "-") || (c =? chr ".").

(** The leading [scheme:] of a URL, when there is one. *)
Definition split_scheme (url : pystr) : pystr * pystr :=
  match url with
  | c0 :: _ =>
      match split_first (chr ":") url with
      | Some (s, rest) =>
          if negb (bool_decide (s = [])) && is_ascii c0 && ascii_isalpha c0
             && forallb scheme_char s
          then (map ascii_lower s, rest)
          else ([], url)
      | None => ([], url)
      end
  | [] => ([], url)
  end.

Definition is_delim (c : N) : bool :=
  (c =? chr "/") || (c =? chr "?") || (c =? chr "#").

Fixpoint take_until (f : N -> bool) (s : pystr) : pystr * pystr :=
  match s with
  | [] => ([], [])
  | a :: r =>
      if f a then ([], s)
      else let '(u, v) := take_until f r in (a :: u, v)
  end.

(** [_splitnetloc(url, 2)] *)
Definition splitnetloc (url : pystr) : pystr * pystr :=
  take_until is_delim (drop 2 url).

Section with_runtime.
Context `{PythonRuntime}.

Definition checknetloc (nl : pystr) : outcome unit :=
  if bool_decide (nl = []) || forallb is_ascii nl then Ok ()
  else
    let n := remove_char (chr "?") (remove_char (chr "#")
               (remove_char (chr ":") (remove_char (chr "@") nl))) in
    let n2 := nfkc n in
    if bool_decide (n = n2) then Ok ()
    else if existsb (fun c => has_char c n2)
              [chr "/"; chr "?"; chr "#"; chr "@"; chr ":"]
    then Raise (Exn "ValueError" "netloc contains invalid characters under NFKC normalization")
    else Ok ().

Definition urlsplit (url0 : pystr) : outcome SplitResult :=
  let url := lstrip_by (fun c => c <=? 32) url0 in
  let url := remove_char 10 (remove_char 13 (remove_char 9 url)) in
  let '(sch, url) := split_scheme url in
  '(nl, url) ←
    (if startswith (py "//") url then
       let '(nl, rest) := splitnetloc url in
       let lb := has_char (chr "[") nl in
       let rb := has_char (chr "]") nl in
       if (lb && negb rb) || (rb && negb lb)
       then Raise (Exn "ValueError" "Invalid IPv6 URL")
       else if lb && rb then
         let after := default [] (snd <$> split_first (chr "[") nl) in
         let host := match split_first (chr "]") after with
                     | Some (h, _) => h
                     | None => after
                     end in
         if bracketed_host_ok host then Ok (nl, rest)
         else Raise (Exn "ValueError" "invalid bracketed host")
       else Ok (nl, rest)
     else Ok ([], url));
  let '(url, frag) := default (url, []) (split_first (chr "#") url) in
  let '(url, q) := default (url, []) (split_first (chr "?") url) in
  _ ← checknetloc nl;
  Ok {| scheme := sch; netloc := nl; path := url; query := q; fragment := frag |}.

(** [urlparse] is [urlsplit] followed by a split of the [;parameters]
    off the path, which leaves the other fields as they are. *)
Definition urlparse (url : pystr) : outcome SplitResult := urlsplit url.

(** [unquote(s)] *)
Definition unquote (s : pystr) : pystr :=
  if has_char (chr "%") s then unquote_escapes s else s.

(** [parse_qsl(qs)] with its default arguments: blank values are
    dropped. *)
Definition parse_qsl (qs : pystr) : list (pystr * pystr) :=
  omap (fun name_value =>
          match split_first (chr "=") name_value with
          | Some (n, v) =>
              if bool_decide (v = []) then None
              else Some (unquote (replace_char (chr "+") (chr " ") n),
                         unquote (replace_char (chr "+") (chr " ") v))
          | None => None
          end)
       (split_on (chr "&") qs).

(** [parse_qs(qs)]: each name with the list of its values, in order. *)
Definition parse_qs (qs : pystr) : gmap pystr (list pystr) :=
  fold_left (fun parsed_result '(name, value) =>
               match parsed_result !! name with
               | Some vs => <[name := vs ++ [value]]> parsed_result
               | None => <[name := [value]]> parsed_result
               end)
            (parse_qsl qs) ∅.

(** The host part of the authority ([SplitResult._hostinfo]), before
    lower-casing. *)
Definition hostinfo (nl : pystr) : pystr :=
  let hi := match split_last (chr "@") nl with
            | Some (_, h) => h
            | None => nl
            end in
  match split_first (chr "[") hi with
  | Some (_, bracketed) =>
      match split_first (chr "]") bracketed with
      | Some (h, _) => h
      | None => bracketed
      end
  | None =>
      match split_first (chr ":") hi with
      | Some (h, _) => h
      | None => hi
      end
  end.

End with_runtime.

End urllib.

(** ** re, for the two patterns of the scraper *)

Module re.
Section with_runtime.
Context `{PythonRuntime}.

Fixpoint digit_run (s : pystr) : pystr :=
  match s with
  | [] => []
  | a :: r => if str_isdecimal a then a :: digit_run r else []
  end.

(** [re.search(r'(\d+)R?', s)]: group 1 of the leftmost match, the first
    maximal run of decimal digits. *)
Fixpoint search_number (s : pystr) : option pystr :=
  match s with
  | [] => None
  | a :: r => if str_isdecimal a then Some (digit_run s) else search_number r
  end.

(** A literal character, then the rest of the pattern. *)
Definition lit {R} (c : N) (k : pystr -> option R) (s : pystr) : option R :=
  match s with
  | a :: r => if a =? c then k r else None
  | [] => None
  end.

(** [(\d{4})], then the rest of the pattern. *)
Definition digits4 {R} (k : pystr -> pystr -> option R) (s : pystr) : option R :=
  match s with
  | a :: b :: c :: d :: r =>
      if str_isdecimal a && str_isdecimal b && str_isdecimal c && str_isdecimal d
      then k [a; b; c; d] r
      else None
  | _ => None
  end.

(** [(\d{1,2})], greedy: two digits are tried first, one digit when the
    rest of the pattern fails after two. *)
Definition digits12 {R} (k : pystr -> pystr -> option R) (s : pystr) : option R :=
  match s with
  | a :: r =>
      if str_isdecimal a then
        match r with
        | b :: r' =>
            if str_isdecimal b then
              match k [a; b] r' with
              | Some g => Some g
              | None => k [a] r
              end
            else k [a] r
        | [] => k [a] r
        end
      else None
  | [] => None
  end.

(** The pattern [(\d{4})年(\d{1,2})月(\d{1,2})日] matched at the start
    of [s]: its three groups.  The three literals are the code points
    U+5E74 (24180), U+6708 (26376) and U+65E5 (26085). *)
Definition match_date (s : pystr) : option (pystr * pystr * pystr) :=
  digits4 (fun year =>
    lit 24180 (digits12 (fun month =>
      lit 26376 (digits12 (fun day =>
        lit 26085 (fun _ => Some (year, month, day))))))) s.

(** [re.search] of that pattern: the leftmost match. *)
Fixpoint search_date (s : pystr) : option (pystr * pystr * pystr) :=
  match match_date s with
  | Some g => Some g
  | None =>
      match s with
      | [] => None
      | _ :: r => search_date r
      end
  end.

End with_runtime.
End re.

(** ** The browser-automation engine (Playwright's async API)

    Each call of the engine returns a value or raises.  A rendered page is
    taken as it stands while the extraction runs: the same query gives the
    same answer.  Waiting and time-outs show only in whether a call
    raises. *)

(** An [ElementHandle]. *)
#[local] Set Warnings "-register-all".
Inductive Element : Type := mkElement {
  inner_text : outcome pystr;
  query_selector : string -> outcome (option Element);
  query_selector_all : string -> outcome (list Element)
}.

Module Page.
Record t := mk {
  goto : pystr -> outcome unit;
  wait_for_selector : string -> outcome unit;
  query_selector : string -> outcome (option Element);
  query_selector_all : string -> outcome (list Element)
}.
End Page.

Record Browser := {
  new_page : outcome Page.t;
  close : outcome unit
}.

Record Playwright := { launch : outcome Browser }.

(** ** Code that fills a dictionary and may raise

    A computation over a mutable object [S]: what it has written stays
    written when it raises. *)
Definition M (S A : Type) : Type := S -> S * outcome A.

#[global] Instance M_ret {S} : MRet (M S) := fun A a s => (s, Ok a).
#[global] Instance M_bind {S} : MBind (M S) := fun A B f m s =>
  match m s with
  | (s', Ok a) => f a s'
  | (s', Raise e) => (s', Raise e)
  end.

#[global] Instance M_fmap {S} : FMap (M S) := fun A B f m s =>
  match m s with
  | (s', Ok a) => (s', Ok (f a))
  | (s', Raise e) => (s', Raise e)
  end.

(** An awaited call of the engine. *)
Definition await {S A} (o : outcome A) : M S A := fun s => (s, o).

(** [d[k] = v] *)
Definition set_item {V} (k : pystr) (v : V) : M (gmap pystr V) unit :=
  fun d => (<[k := v]> d, Ok ()).

(** [d.get(k)] *)
Definition get_item {V} (k : pystr) : M (gmap pystr V) (option V) :=
  fun d => (d, Ok (d !! k)).

(** [for x in xs: body]: an exception ends the loop. *)
Fixpoint for_each {S A} (xs : list A) (body : A -> M S unit) : M S unit :=
  match xs with
  | [] => mret ()
  | x :: rest => _ ← body x; for_each rest body
  end.

(** [try: body / except Exception: print(...)] around code that fills the
    object: the object is what the body left of it.  The diagnostic
    [print] of an [except] handler of the extractors is taken to return,
    here and in [horse_rows] and [extract_horses_data]; the prints of
    [main] are calls of the [Console]. *)
Definition guarded {S} (body : M S unit) (s : S) : S := fst (body s).

(** The truth value of a string. *)
Definition truthy (s : pystr) : bool :=
  match s with [] => false | _ :: _ => true end.

(** [[await e.inner_text() for e in es]], built by appending in a loop. *)
Fixpoint inner_texts (es : list Element) : outcome (list pystr) :=
  match es with
  | [] => Ok []
  | e :: rest => text ← inner_text e; texts ← inner_texts rest; Ok (text :: texts)
  end.

(** ** scraper.py *)

Record RaceRecord := {
  race_url : pystr;
  race_id : pystr;
  race_type : pystr;
  race_info : gmap pystr pystr;
  horses : list (gmap pystr pystr);
  corner_passing_order : gmap pystr pystr;
  lap_times : gmap pystr (list pystr)
}.

Definition track_conditions : list pystr :=
  [py "良"; py "稍重"; py "重"; py "不良"].

Definition race_class_tokens : list pystr :=
  [py "新馬"; py "未勝利"; py "1勝クラス"; py "2勝クラス"; py "3勝クラス";
   py "オープン"; py "G3"; py "G2"; py "G1"].

Section scraper.
Context `{PythonRuntime}.

Definition extract_race_id (url : pystr) : pystr :=
  match (parsed_url ← urllib.urlparse url;
         let query_params := urllib.parse_qs (urllib.query parsed_url) in
         index (default [empty_str] (query_params !! py "race_id")) 0) with
  | Ok race_id => race_id
  | Raise _ => py "unknown"
  end.

Definition detect_race_type (url : pystr) : pystr :=
  if contains (py "nar.netkeiba.com") url then py "nar"
  else if contains (py "race.netkeiba.com") url then py "jra"
  else py "unknown".

(** The test on a [.RaceData01] span that makes it the distance. *)
Definition is_distance (text : pystr) : bool :=
  contains (py "m") text && (contains (py "ダ") text || contains (py "芝") text).

Definition is_track_condition (text : pystr) : bool :=
  str_in text track_conditions.

(** The test on a [.RaceData02] span that makes it the race class. *)
Definition is_race_class (text : pystr) : bool :=
  (contains (py "A") text && existsb str_isdigit text)
  || contains (py "サラ系") text
  || str_in text race_class_tokens.

(** The body of the first loop of [extract_race_info]. *)
Definition race_data01_item (item : Element) : M (gmap pystr pystr) unit :=
  text ← strip <$> await (inner_text item);
  if is_distance text then set_item (py "distance") text
  else if is_track_condition text then set_item (py "track_condition") text
  else mret ().

(** The body of its second loop. *)
Definition race_data02_item (item : Element) : M (gmap pystr pystr) unit :=
  text ← strip <$> await (inner_text item);
  if is_race_class text then set_item (py "race_class") text
  else mret ().

(** [# Extract race name/title] *)
Definition race_name_step (page : Page.t) (race_type : pystr)
  : M (gmap pystr pystr) unit :=
  let race_title_selector :=
    if bool_decide (race_type = py "nar") then ".RaceName"%string
    else ".RaceName"%string in
  race_title_elem ← await (Page.query_selector page race_title_selector);
  match race_title_elem with
  | Some e =>
      text ← await (inner_text e);
      set_item (py "race_name") (strip text)
  | None => mret ()
  end.

(** [# Extract race details from RaceData01 section] *)
Definition race_data01_step (page : Page.t) : M (gmap pystr pystr) unit :=
  race_data_items ← await (Page.query_selector_all page ".RaceData01 span");
  for_each race_data_items race_data01_item.

(** [# Extract class information from RaceData02 section] *)
Definition race_data02_step (page : Page.t) : M (gmap pystr pystr) unit :=
  race_data2_items ← await (Page.query_selector_all page ".RaceData02 span");
  for_each race_data2_items race_data02_item.

(** [# Extract race number from RaceNum] *)
Definition race_number_step (page : Page.t) : M (gmap pystr pystr) unit :=
  race_num_elem ← await (Page.query_selector page ".RaceNum");
  match race_num_elem with
  | Some e =>
      race_num_text ← strip <$> await (inner_text e);
      match re.search_number race_num_text with
      | Some g1 => set_item (py "race_number") g1
      | None => mret ()
      end
  | None => mret ()
  end.

(** [# Extract date from page title] *)
Definition race_date_step (page : Page.t) : M (gmap pystr pystr) unit :=
  title_elem ← await (Page.query_selector page "title");
  match title_elem with
  | Some e =>
      title_text ← strip <$> await (inner_text e);
      match re.search_date title_text with
      | Some (year, month, day) =>
          set_item (py "race_date")
            (year ++ py "/" ++ zfill 2 month ++ py "/" ++ zfill 2 day)
      | None => mret ()
      end
  | None => mret ()
  end.

(** [# Fallback: try to extract from page title] *)
Definition page_title_step (page : Page.t) : M (gmap pystr pystr) unit :=
  race_name ← get_item (py "race_name");
  if negb (truthy (default [] race_name)) then
    title_elem ← await (Page.query_selector page "title");
    match title_elem with
    | Some e =>
        title_text ← await (inner_text e);
        set_item (py "page_title") (strip title_text)
    | None => mret ()
    end
  else mret ().

(** The guarded region of [extract_race_info]. *)
Definition race_info_body (page : Page.t) (race_type : pystr)
  : M (gmap pystr pystr) unit :=
  _ ← race_name_step page race_type;
  _ ← race_data01_step page;
  _ ← race_data02_step page;
  _ ← race_number_step page;
  _ ← race_date_step page;
  page_title_step page.

Definition extract_race_info (page : Page.t) (race_type : pystr)
  : gmap pystr pystr :=
  guarded (race_info_body page race_type) ∅.

(** The column layout of a results row with [n] cells: [None] when the
    row has too few cells ([continue]), else the time index, the last-3F
    index and the corner-passage index. *)
Definition row_layout (race_type : pystr) (n : nat)
  : option (nat * nat * option nat) :=
  if bool_decide (race_type = py "nar") then
    if (n <? 12)%nat then None else Some (7, 11, None)%nat
  else
    if (n <? 13)%nat then None else Some (7, 11, Some 12)%nat.

(** The least number of cells of a data row: 12 for the local layout,
    13 for the central one. *)
Definition layout_minimum (race_type : pystr) : nat :=
  if bool_decide (race_type = py "nar") then 12 else 13.

(** [await e.inner_text() if e else ''] *)
Definition text_or_empty (e : option Element) : outcome pystr :=
  match e with
  | Some e => inner_text e
  | None => Ok (empty_str)
  end.

(** The body of the loop over the rows, inside its [try]: [Ok None] is
    [continue], [Ok (Some h)] reaches [horses.append(h)]. *)
Definition horse_row (race_type : pystr) (row : Element)
  : outcome (option (gmap pystr pystr)) :=
  cells ← query_selector_all row "td";
  match row_layout race_type (length cells) with
  | None => Ok None
  | Some (time_index, last_3f_index, corner_passage_index) =>
      rank_elem ← (c ← index cells 0; query_selector c ".Rank");
      rank ← text_or_empty rank_elem;
      frame_elem ← (c ← index cells 1; query_selector c "div");
      frame ← text_or_empty frame_elem;
      horse_num_elem ← (c ← index cells 2; query_selector c "div");
      horse_num ← text_or_empty horse_num_elem;
      horse_name_elem ← (c ← index cells 3; query_selector c ".Horse_Name a");
      horse_name ← text_or_empty horse_name_elem;
      time_elem ← (c ← index cells time_index; query_selector c ".RaceTime");
      time ← text_or_empty time_elem;
      last_3f ← (if (last_3f_index <? length cells)%nat
                 then c ← index cells last_3f_index; inner_text c
                 else Ok (empty_str));
      corner_passage ←
        match corner_passage_index with
        | Some i =>
            if negb (i =? 0)%nat && (i <? length cells)%nat then
              corner_passage_elem ←
                (c ← index cells i; query_selector c ".PassageRate");
              text_or_empty corner_passage_elem
            else Ok (empty_str)
        | None => Ok (empty_str)
        end;
      let horse_data : gmap pystr pystr :=
        <[py "last_3f" := strip last_3f]>
        (<[py "time" := strip time]>
        (<[py "horse_name" := strip horse_name]>
        (<[py "horse_number" := strip horse_num]>
        (<[py "frame" := strip frame]>
        (<[py "rank" := strip rank]> ∅))))) in
      let horse_data :=
        if truthy corner_passage
        then <[py "corner_passage" := strip corner_passage]> horse_data
        else horse_data in
      Ok (Some horse_data)
  end.

(** The loop over the rows: a row that raises is skipped. *)
Fixpoint horse_rows (race_type : pystr) (rows : list Element)
    (horses : list (gmap pystr pystr)) : list (gmap pystr pystr) :=
  match rows with
  | [] => horses
  | row :: rest =>
      horse_rows race_type rest
        match horse_row race_type row with
        | Ok (Some horse_data) => horses ++ [horse_data]
        | Ok None => horses
        | Raise _ => horses
        end
  end.

(** The selector of the results table of a layout, and the looser one. *)
Definition table_selector (race_type : pystr) : string :=
  if bool_decide (race_type = py "nar") then "table.RaceTable01.ResultMain"
  else "table.RaceTable01.RaceCommon_Table".

Definition fallback_table_selector (race_type : pystr) : string :=
  if bool_decide (race_type = py "nar") then "table.RaceTable01"
  else "table.RaceCommon_Table".

(** The two waits for the results table: the selector of the rows to
    read, or [None] when both waits raise. *)
Definition wait_for_table (page : Page.t) (race_type : pystr) : option string :=
  match Page.wait_for_selector page (table_selector race_type) with
  | Ok _ => Some (table_selector race_type +:+ " tbody tr")
  | Raise _ =>
      match Page.wait_for_selector page (fallback_table_selector race_type) with
      | Ok _ => Some (fallback_table_selector race_type +:+ " tbody tr")
      | Raise _ => None
      end
  end.

(** When both waits raise, the handler prints its message and returns
    the empty list.  The query for the rows is outside every [try]: when
    it raises, so does the extractor. *)
Definition extract_horses_data (page : Page.t) (race_type : pystr)
  : outcome (list (gmap pystr pystr)) :=
  match wait_for_table page race_type with
  | None => Ok []
  | Some table_rows_selector =>
      rows ← Page.query_selector_all page table_rows_selector;
      Ok (horse_rows race_type rows [])
  end.

(** The body of the loop of [extract_corner_data]. *)
Definition corner_row (row : Element) : M (gmap pystr pystr) unit :=
  header ← await (query_selector row "th strong");
  match header with
  | Some header =>
      corner_num ← await (inner_text header);
      order_cell ← await (query_selector row "td");
      match order_cell with
      | Some order_cell =>
          order_text ← await (inner_text order_cell);
          set_item (py "corner_" ++ corner_num) order_text
      | None => mret ()
      end
  | None => mret ()
  end.

Definition corner_body (page : Page.t) : M (gmap pystr pystr) unit :=
  corner_rows ← await (Page.query_selector_all page "table.Corner_Num tr");
  for_each corner_rows corner_row.

Definition extract_corner_data (page : Page.t) : gmap pystr pystr :=
  guarded (corner_body page) ∅.

(** The texts of the [sel] cells of row [i], read one by one. *)
Definition row_texts (rows : list Element) (i : nat) (sel : string)
  : outcome (list pystr) :=
  row ← index rows i;
  cells ← query_selector_all row sel;
  inner_texts cells.

(** What [extract_lap_times] does with the rows of the lap table. *)
Definition lap_rows (rows : list Element) : M (gmap pystr (list pystr)) unit :=
  if (1 <=? length rows)%nat then
    distances ← await (row_texts rows 0 "th");
    _ ← (if (2 <=? length rows)%nat then
           cumulative_times ← await (row_texts rows 1 "td");
           _ ← set_item (py "distances") distances;
           set_item (py "cumulative_times") cumulative_times
         else mret ());
    if (3 <=? length rows)%nat then
      interval_times ← await (row_texts rows 2 "td");
      set_item (py "interval_times") interval_times
    else mret ()
  else mret ().

Definition lap_body (page : Page.t) : M (gmap pystr (list pystr)) unit :=
  lap_table ← await (Page.query_selector page "table.Race_HaronTime");
  match lap_table with
  | Some lap_table =>
      rows ← await (query_selector_all lap_table "tbody tr");
      lap_rows rows
  | None => mret ()
  end.

Definition extract_lap_times (page : Page.t) : gmap pystr (list pystr) :=
  guarded (lap_body page) ∅.

(** [try: body / finally: cleanup] *)
Definition try_finally {A} (body : outcome A) (cleanup : outcome unit)
  : outcome A :=
  match body, cleanup with
  | Ok a, Ok _ => Ok a
  | Raise e, Ok _ => Raise e
  | _, Raise e => Raise e
  end.

(** One scrape: the browser is closed on every way out of the [try].
    Setting the default time-out changes no result and is left out. *)
Definition scrape_race_data (p : Playwright) (url : pystr) : outcome RaceRecord :=
  browser ← launch p;
  page ← new_page browser;
  try_finally
    (_ ← Page.goto page url;
     let race_type := detect_race_type url in
     let race_id := extract_race_id url in
     let race_info := extract_race_info page race_type in
     horses_data ← extract_horses_data page race_type;
     let corner_data := extract_corner_data page in
     let lap_times := extract_lap_times page in
     Ok {| race_url := url;
           race_id := race_id;
           race_type := race_type;
           race_info := race_info;
           horses := horses_data;
           corner_passing_order := corner_data;
           lap_times := lap_times |})
    (close browser).

End scraper.

(** ** The command line *)

(** The file system under the process: creating the output directory and
    writing the JSON text of a record to a file. *)
Record FileSystem := {
  makedirs : pystr -> outcome unit;
  dump_json : pystr -> RaceRecord -> outcome unit
}.

(** Standard output: [print] of a line of text, and [print] of the JSON
    text of a record ([json.dumps] with [ensure_ascii=False]).  A call
    returns or raises: the stream is closed, or its encoding lacks a
    character of the text. *)
Record Console := {
  print : pystr -> outcome unit;
  print_json : RaceRecord -> outcome unit
}.

(** What a run of the program leaves: its exit code and the file it
    wrote, with the record in it. *)
Record Run := {
  exit_code : N;
  written : option (pystr * RaceRecord)
}.

Section main.
Context `{PythonRuntime}.

(** [except Exception as e: print(f"Error: {e}"); sys.exit(1)], reached
    with [saved] on the disk.  When this print raises too, the exception
    leaves the program, which ends with status 1 as well. *)
Definition report_error (out : Console) (e : exn)
    (saved : option (pystr * RaceRecord)) : Run :=
  match print out (py "Error: " ++ py (exn_msg e)) with
  | Ok _ => {| exit_code := 1; written := saved |}
  | Raise _ => {| exit_code := 1; written := saved |}
  end.

(** [main], with [sys.argv] as [argv].  Opening the file and [json.dump]
    into it are one call of the file system; the file counts as written
    when that call has returned.  The prints after it are still inside
    the [try]: when one raises, the file stays and the program ends with
    status 1. *)
Definition main (out : Console) (argv : list pystr) (p : Playwright)
    (fs : FileSystem) : Run :=
  if (length argv <? 2)%nat then
    match print out (py "Usage: python scraper.py <race_url>") with
    | Ok _ => {| exit_code := 1; written := None |}
    | Raise _ => {| exit_code := 1; written := None |}
    end
  else
    let url := default [] (argv !! 1%nat) in
    match (_ ← print out (py "Scraping data from: " ++ url);
           result ← scrape_race_data p url;
           let output_file :=
             py "output/race_data_" ++ race_id result ++ py ".json" in
           _ ← makedirs fs (py "output");
           _ ← dump_json fs output_file result;
           Ok (output_file, result)) with
    | Raise e => report_error out e None
    | Ok (output_file, result) =>
        match (_ ← print out (py "Data saved to: " ++ output_file);
               print_json out result) with
        | Ok _ => {| exit_code := 0; written := Some (output_file, result) |}
        | Raise e => report_error out e (Some (output_file, result))
        end
    end.

End main.

(** A runtime that knows the ASCII digits only and decodes nothing. *)
Definition ascii_runtime : PythonRuntime := {|
  str_isdecimal := ascii_isdigit;
  str_isdigit := ascii_isdigit;
  nfkc := fun s => s;
  bracketed_host_ok := fun _ => true;
  unquote_escapes := fun s => s
|}.

(** ** The host of a URL, for the classifier's specification *)

(** The host that [urlparse(url)] reports (before lower-casing); empty when
    the URL does not parse. *)
Definition url_host `{PythonRuntime} (url : pystr) : pystr :=
  match urllib.urlparse url with
  | Ok r => urllib.hostinfo (urllib.netloc r)
  | Raise _ => []
  end.

(** ** Pages to run the extractors on *)

Definition children_of (kids : list (string * list Element)) (sel : string)
  : list Element :=
  match List.find (fun p => String.eqb (fst p) sel) kids with
  | Some p => snd p
  | None => []
  end.

(** An element with a text and, per selector, the elements under it. *)
Definition element (text : outcome pystr) (kids : list (string * list Element))
  : Element :=
  {| inner_text := text;
     query_selector := fun sel => Ok (head (children_of kids sel));
     query_selector_all := fun sel => Ok (children_of kids sel) |}.

Definition text_element (text : pystr) : Element := element (Ok text) [].

(** An element that is gone from the page when it is read. *)
Definition detached : exn :=
  Exn "Error" "Element is not attached to the DOM".

Definition detached_element : Element :=
  {| inner_text := Raise detached;
     query_selector := fun _ => Raise detached;
     query_selector_all := fun _ => Raise detached |}.

Definition timeout : exn := Exn "TimeoutError" "Timeout exceeded".

(** A page on which the selectors of [present] appear, with the elements of
    [kids] under it. *)
Definition page_of (present : list string) (kids : list (string * list Element))
  : Page.t :=
  {| Page.goto := fun _ => Ok ();
     Page.wait_for_selector := fun sel =>
       if existsb (String.eqb sel) present then Ok () else Raise timeout;
     Page.query_selector := fun sel => Ok (head (children_of kids sel));
     Page.query_selector_all := fun sel => Ok (children_of kids sel) |}.

(** ** Pages of the examples *)

(** A results row of the central layout with thirteen cells, whose
    corner-passage cell holds a no-break space. *)
Definition blank_passage_row : Element :=
  element (Ok [])
    [("td"%string,
      [element (Ok []) [(".Rank"%string, [text_element (py "1")])];
       element (Ok []) [("div"%string, [text_element (py "3")])];
       element (Ok []) [("div"%string, [text_element (py "5")])];
       element (Ok []) [(".Horse_Name a"%string, [text_element (py "Equinox")])];
       text_element (py "牡4");
       text_element (py "58.0");
       text_element (py "Lemaire");
       element (Ok []) [(".RaceTime"%string, [text_element (py "2:21.8")])];
       text_element (empty_str);
       text_element (py "1");
       text_element (py "1.3");
       text_element (py " 33.5 ");
       element (Ok []) [(".PassageRate"%string, [text_element [160]])]])].

Definition blank_passage_page : Page.t :=
  page_of ["table.RaceTable01.RaceCommon_Table"%string]
    [("table.RaceTable01.RaceCommon_Table tbody tr"%string, [blank_passage_row])].

(** A header row: no [td] cell at all. *)
Definition header_row : Element :=
  element (Ok []) [("th"%string, [text_element (py "着順"); text_element (py "枠")])].

Definition header_and_horse_page : Page.t :=
  page_of ["table.RaceTable01.RaceCommon_Table"%string]
    [("table.RaceTable01.RaceCommon_Table tbody tr"%string,
      [header_row; blank_passage_row])].

(** A corner row: its label and its passing order. *)
Definition corner_row_of (label order : pystr) : Element :=
  element (Ok [])
    [("th strong"%string, [text_element label]);
     ("td"%string, [text_element order])].

(** Two corner rows, the second gone when it is read. *)
Definition corner_page_failing : Page.t :=
  page_of []
    [("table.Corner_Num tr"%string,
      [corner_row_of (py "1") (py "(3,5)-1"); detached_element])].

(** A row of the lap table. *)
Definition lap_row_of (sel : string) (texts : list pystr) : Element :=
  element (Ok []) [(sel, text_element <$> texts)].

Definition lap_page_of (rows : list Element) : Page.t :=
  page_of []
    [("table.Race_HaronTime"%string,
      [element (Ok []) [("tbody tr"%string, rows)]])].

(** A lap table whose third row is gone when it is read. *)
Definition lap_page_failing : Page.t :=
  lap_page_of [lap_row_of "th" [py "200m"; py "400m"];
               lap_row_of "td" [py "12.5"; py "23.6"];
               detached_element].

(** A lap table with its header row only. *)
Definition lap_page_header_only : Page.t :=
  lap_page_of [lap_row_of "th" [py "200m"; py "400m"]].

(** A lap table with its three rows. *)
Definition lap_page_full : Page.t :=
  lap_page_of [lap_row_of "th" [py "200m"; py "400m"];
               lap_row_of "td" [py "12.5"; py "23.6"];
               lap_row_of "td" [py "12.5"; py "11.1"]].

(** A page of the central layout with its header filled in. *)
Definition race_page : Page.t :=
  page_of []
    [(".RaceName"%string, [text_element (py "弥生賞")]);
     (".RaceData01 span"%string,
      [text_element (py " 芝2000m "); text_element (py "稍重");
       text_element (py "芝1600m"); text_element (py "良")]);
     (".RaceData02 span"%string,
      [text_element (py "サラ系3歳"); text_element (py "オープン")]);
     (".RaceNum"%string, [text_element (py "11R")]);
     ("title"%string,
      [text_element (py "弥生賞 結果 | 2024年3月10日 中山11R")])].

(** The URL of a result page. *)
Definition result_url : pystr :=
  py "https://race.netkeiba.com/race/result.html?race_id=202406020111".

(** A browser that opens a given page, and a file system that takes every
    write. *)
Definition playwright_of (page : Page.t) : Playwright :=
  {| launch := Ok {| new_page := Ok page; close := Ok () |} |}.


(** A standard output that takes every line. *)
Definition terminal : Console :=
  {| print := fun _ => Ok (); print_json := fun _ => Ok () |}.

(** ** Notions of the proofs *)

(** A predicate on the object that a computation keeps, whether it returns
    or raises. *)
Definition preserves {S A : Type} (P : S → Prop) (m : M S A) : Prop :=
  ∀ s, P s → P (m s).1.

(** A key that a computation leaves as it was. *)
Definition keeps_key {V A : Type} (k : pystr) (m : M (gmap pystr V) A) : Prop :=
  ∀ d, (m d).1 !! k = d !! k.

(** What one [.RaceData01] span text does to the dictionary, and one
    [.RaceData02] span text. *)
Definition note_race_data01 (text : pystr) (d : gmap pystr pystr)
  : gmap pystr pystr :=
  if is_distance text then <[py "distance" := text]> d
  else if is_track_condition text then <[py "track_condition" := text]> d
  else d.

Definition note_race_data02 `{PythonRuntime} (text : pystr) (d : gmap pystr pystr)
  : gmap pystr pystr :=
  if is_race_class text then <[py "race_class" := text]> d else d.

(** The track condition of a dictionary is one of the four conditions and
    the text of a [.RaceData01] span of the page. *)
Definition track_condition_from_span (page : Page.t) (d : gmap pystr pystr) : Prop :=
  ∀ v, d !! py "track_condition" = Some v →
    v ∈ track_conditions ∧
    ∃ items item text,
      Page.query_selector_all page ".RaceData01 span" = Ok items ∧
      item ∈ items ∧ inner_text item = Ok text ∧ strip text = v.

(** The race date of a dictionary is the leftmost date of the page title,
    with month and day padded to two characters. *)
Definition race_date_from_title `{PythonRuntime} (page : Page.t)
    (d : gmap pystr pystr) : Prop :=
  ∀ v, d !! py "race_date" = Some v →
    ∃ e title year month day,
      Page.query_selector page "title" = Ok (Some e) ∧
      inner_text e = Ok title ∧
      re.search_date (strip title) = Some (year, month, day) ∧
      v = year ++ py "/" ++ zfill 2 month ++ py "/" ++ zfill 2 day ∧
      length (zfill 2 month) = 2%nat ∧ length (zfill 2 day) = 2%nat.

(** ** More notions of the proofs *)

(** The values that a parsed query gives to a name, in the order of the
    query. *)
Definition values_of (name : pystr) (pairs : list (pystr * pystr)) : list pystr :=
  snd <$> filter (λ p, p.1 = name) pairs.

(** The keys that [extract_race_info] can set. *)
Definition race_info_keys : list pystr :=
  [py "race_name"; py "distance"; py "track_condition"; py "race_class";
   py "race_number"; py "race_date"; py "page_title"].

(** Every key of a dictionary is one of [keys]. *)
Definition keys_within {V : Type} (keys : list pystr) (d : gmap pystr V) : Prop :=
  ∀ k : pystr, is_Some (d !! k) → k ∈ keys.

(** ** More pages of the examples *)

(** A page that raises on one selector of [query_selector] and answers the
    others as [page] does. *)
Definition with_failing_query (sel : string) (page : Page.t) : Page.t :=
  {| Page.goto := Page.goto page;
     Page.wait_for_selector := Page.wait_for_selector page;
     Page.query_selector := fun s =>
       if String.eqb s sel then Raise detached else Page.query_selector page s;
     Page.query_selector_all := Page.query_selector_all page |}.

(** A page with a title and no race name. *)
Definition title_only_page : Page.t :=
  page_of [] [("title"%string, [text_element (py " 東京競馬 | netkeiba ")])].

(** A URL that names the race twice, and what [urlparse] makes of it. *)
Definition two_ids_url : pystr :=
  py "https://race.netkeiba.com/race/result.html?race_id=202406020111&race_id=7#top".

Definition two_ids_split : urllib.SplitResult :=
  {| urllib.scheme := py "https";
     urllib.netloc := py "race.netkeiba.com";
     urllib.path := py "/race/result.html";
     urllib.query := py "race_id=202406020111&race_id=7";
     urllib.fragment := py "top" |}.

(** The page of the central layout, with its race number gone when it is
    asked for. *)
Definition race_number_failing_page : Page.t :=
  with_failing_query ".RaceNum" race_page.

(** The keys that a horse of the results table can have. *)
Definition horse_keys : list pystr :=
  [py "rank"; py "frame"; py "horse_number"; py "horse_name"; py "time";
   py "last_3f"; py "corner_passage"].

(** The six fields that every horse has, from the texts read for them. *)
Definition horse_fields (rank frame horse_num horse_name time last_3f : pystr)
  : gmap pystr pystr :=
  <[py "last_3f" := strip last_3f]>
  (<[py "time" := strip time]>
  (<[py "horse_name" := strip horse_name]>
  (<[py "horse_number" := strip horse_num]>
  (<[py "frame" := strip frame]>
  (<[py "rank" := strip rank]> ∅))))).

(** A results row of the local layout with twelve cells. *)
Definition local_row : Element :=
  element (Ok [])
    [("td"%string,
      [element (Ok []) [(".Rank"%string, [text_element (py "2")])];
       element (Ok []) [("div"%string, [text_element (py "4")])];
       element (Ok []) [("div"%string, [text_element (py "4")])];
       element (Ok []) [(".Horse_Name a"%string, [text_element (py " Haiseiko ")])];
       text_element (py "牡3");
       text_element (py "56.0");
       text_element (py "Takahashi");
       element (Ok []) [(".RaceTime"%string, [text_element (py "1:35.2")])];
       text_element (py "1/2");
       text_element (py "3");
       text_element (py "5.6");
       text_element (py "38.1")])].

Definition local_page : Page.t :=
  page_of ["table.RaceTable01.ResultMain"%string]
    [("table.RaceTable01.ResultMain tbody tr"%string, [local_row])].

(** A results table of the central layout whose first row is gone when it
    is read. *)
Definition detached_row_page : Page.t :=
  page_of ["table.RaceTable01.RaceCommon_Table"%string]
    [("table.RaceTable01.RaceCommon_Table tbody tr"%string,
      [detached_element; blank_passage_row])].

(** Every entry of a corner mapping is the label and the passing order of a
    row of the corner table of the page. *)
Definition corner_entries_from_rows (page : Page.t) (d : gmap pystr pystr) : Prop :=
  ∀ k v : pystr, d !! k = Some v →
    ∃ (rows : list Element) (row header : Element) (label : pystr) (cell : Element),
      Page.query_selector_all page "table.Corner_Num tr" = Ok rows ∧
      row ∈ rows ∧
      query_selector row "th strong" = Ok (Some header) ∧
      inner_text header = Ok label ∧
      k = py "corner_" ++ label ∧
      query_selector row "td" = Ok (Some cell) ∧
      inner_text cell = Ok v.

(** What a row of the corner table gives: its key and its passing order,
    nothing when it has no label or no cell. *)
Definition corner_entry (row : Element) : outcome (option (pystr * pystr)) :=
  header ← query_selector row "th strong";
  match header with
  | Some header =>
      corner_num ← inner_text header;
      order_cell ← query_selector row "td";
      match order_cell with
      | Some order_cell =>
          order_text ← inner_text order_cell;
          Ok (Some (py "corner_" ++ corner_num, order_text))
      | None => Ok None
      end
  | None => Ok None
  end.

(** The entries of the rows, when every row is read without an exception. *)
Fixpoint corner_entries (rows : list Element) : outcome (list (pystr * pystr)) :=
  match rows with
  | [] => Ok []
  | row :: rest =>
      entry ← corner_entry row;
      entries ← corner_entries rest;
      Ok (match entry with Some p => p :: entries | None => entries end)
  end.

(** A corner table with the first corner named twice and a row without a
    label. *)
Definition corner_page_twice : Page.t :=
  page_of []
    [("table.Corner_Num tr"%string,
      [corner_row_of (py "1") (py "(3,5)-1");
       element (Ok []) [("td"%string, [text_element (py "-")])];
       corner_row_of (py "2") (py "3-5-1");
       corner_row_of (py "1") (py "5,3,1")])].

(** The keys that [extract_lap_times] can set. *)
Definition lap_keys : list pystr :=
  [py "distances"; py "cumulative_times"; py "interval_times"].

(** A lap table with five rows, and one whose second row is gone when it is
    read. *)
Definition lap_page_five : Page.t :=
  lap_page_of [lap_row_of "th" [py "200m"; py "400m"];
               lap_row_of "td" [py "12.5"; py "23.6"];
               lap_row_of "td" [py "12.5"; py "11.1"];
               lap_row_of "td" [py "x"];
               lap_row_of "td" [py "y"]].

Definition lap_page_second_failing : Page.t :=
  lap_page_of [lap_row_of "th" [py "200m"; py "400m"];
               detached_element;
               lap_row_of "td" [py "12.5"; py "11.1"]].




(** The record of the page of the central layout under the ASCII runtime. *)
Definition race_page_record : RaceRecord :=
  {| race_url := result_url;
     race_id := @extract_race_id ascii_runtime result_url;
     race_type := detect_race_type result_url;
     race_info := @extract_race_info ascii_runtime race_page
                    (detect_race_type result_url);
     horses := [];
     corner_passing_order := extract_corner_data race_page;
     lap_times := extract_lap_times race_page |}.

(** ** Engine calls that return *)

(** The element of a selector can be read: the query returns, and the text
    of the element it finds, if any, is read without an exception. *)
Definition selector_readable (page : Page.t) (sel : string) : bool :=
  match Page.query_selector page sel with
  | Ok (Some e) => succeeds (inner_text e)
  | Ok None => true
  | Raise _ => false
  end.

(** The elements of a selector can all be read. *)
Definition spans_readable (page : Page.t) (sel : string) : bool :=
  match Page.query_selector_all page sel with
  | Ok items => succeeds (inner_texts items)
  | Raise _ => false
  end.

(** The [sel] cells of a row can be read: the query for them returns and
    so does the text of each. *)
Definition row_readable (sel : string) (row : Element) : bool :=
  succeeds (cells ← query_selector_all row sel; inner_texts cells).

(** The texts of the elements read before the first one whose text
    raises: all of them when none raises. *)
Fixpoint texts_read (items : list Element) : list pystr :=
  match items with
  | [] => []
  | item :: rest =>
      match inner_text item with
      | Ok text => text :: texts_read rest
      | Raise _ => []
      end
  end.

(** ** Pages and consoles of the examples, continued *)

(** A page whose title shows an older date before the date of the race. *)
Definition earlier_date_page : Page.t :=
  page_of []
    [(".RaceName"%string, [text_element (py "弥生賞")]);
     ("title"%string,
      [text_element (py "1999年1月1日 創刊 | 弥生賞 2024年3月10日 中山11R")])].

(** A page with three spans in its first region, the second gone when it
    is read; the first and the third are distances. *)
Definition span_gone_page : Page.t :=
  page_of []
    [(".RaceName"%string, [text_element (py "弥生賞")]);
     (".RaceData01 span"%string,
      [text_element (py "芝2000m"); detached_element; text_element (py "芝1600m")]);
     (".RaceData02 span"%string,
      [text_element (py "サラ系3歳"); text_element (py "オープン")])].

(** The page of the central layout, with its race name gone when it is
    asked for. *)
Definition race_name_failing_page : Page.t :=
  with_failing_query ".RaceName" race_page.

(** A page of the central layout with its header, its corner table and its
    lap table, and no results table. *)
Definition no_table_page : Page.t :=
  page_of []
    [(".RaceName"%string, [text_element (py "弥生賞")]);
     (".RaceData01 span"%string,
      [text_element (py "芝2000m"); text_element (py "良")]);
     (".RaceData02 span"%string, [text_element (py "オープン")]);
     (".RaceNum"%string, [text_element (py "11R")]);
     ("title"%string,
      [text_element (py "弥生賞 結果 | 2024年3月10日 中山11R")]);
     ("table.Corner_Num tr"%string, [corner_row_of (py "1") (py "(3,5)-1")]);
     ("table.Race_HaronTime"%string,
      [element (Ok [])
         [("tbody tr"%string,
           [lap_row_of "th" [py "200m"; py "400m"];
            lap_row_of "td" [py "12.5"; py "23.6"];
            lap_row_of "td" [py "12.5"; py "11.1"]])]])].

(** The record of that page under the ASCII runtime. *)
Definition no_table_record : RaceRecord :=
  {| race_url := result_url;
     race_id := py "202406020111";
     race_type := py "jra";
     race_info :=
       <[py "race_date" := py "2024/03/10"]>
       (<[py "race_number" := py "11"]>
       (<[py "race_class" := py "オープン"]>
       (<[py "track_condition" := py "良"]>
       (<[py "distance" := py "芝2000m"]>
       (<[py "race_name" := py "弥生賞"]> ∅)))));
     horses := [];
     corner_passing_order := <[py "corner_1" := py "(3,5)-1"]> ∅;
     lap_times :=
       <[py "interval_times" := [py "12.5"; py "11.1"]]>
       (<[py "cumulative_times" := [py "12.5"; py "23.6"]]>
       (<[py "distances" := [py "200m"; py "400m"]]> ∅)) |}.

(** A file system that takes the output directory and one file only. *)
Definition read_only : exn := Exn "OSError" "Read-only file system".

Definition output_only (file : pystr) : FileSystem :=
  {| makedirs := fun dir =>
       if bool_decide (dir = py "output") then Ok () else Raise read_only;
     dump_json := fun f _ =>
       if bool_decide (f = file) then Ok () else Raise read_only |}.



(** * Properties *)

(** An equation between two different string literals. *)
Ltac py_discriminate :=
  match goal with
  | E : _ = _ |- _ => vm_compute in E; discriminate E
  end.

(** ** The URL *)

Section Classifier.

(** C5, as amended: the classifier answers ["nar"] exactly when the URL
  string contains [nar.netkeiba.com], ["jra"] exactly when it does not and
  contains [race.netkeiba.com], ["unknown"] exactly when it contains
  neither. *)
Theorem detect_race_type_by_url_substring (url : pystr) :
  (detect_race_type url = py "nar" ↔ contains (py "nar.netkeiba.com") url = true) ∧
  (detect_race_type url = py "jra" ↔
     contains (py "nar.netkeiba.com") url = false ∧
     contains (py "race.netkeiba.com") url = true) ∧
  (detect_race_type url = py "unknown" ↔
     contains (py "nar.netkeiba.com") url = false ∧
     contains (py "race.netkeiba.com") url = false).
Proof.
  unfold detect_race_type.
  destruct (contains (py "nar.netkeiba.com") url);
    destruct (contains (py "race.netkeiba.com") url);
    repeat split; intros; try done;
    try (destruct_and?; discriminate); py_discriminate.
Qed.

(** C5 as the specification words it fails: a URL whose host has neither
  marker but whose query has the local one is classified ["nar"], and a
  URL whose host contains the central marker and the local one is
  classified ["nar"], not ["jra"]. *)
Lemma detect_race_type_not_by_host :
  (@url_host ascii_runtime (py "https://example.com/?ref=nar.netkeiba.com") = py "example.com"
   ∧ contains (py "nar.netkeiba.com") (py "example.com") = false
   ∧ detect_race_type (py "https://example.com/?ref=nar.netkeiba.com") = py "nar")
  ∧
  (@url_host ascii_runtime (py "https://race.netkeiba.com.nar.netkeiba.com/") = py "race.netkeiba.com.nar.netkeiba.com"
   ∧ contains (py "race.netkeiba.com") (py "race.netkeiba.com.nar.netkeiba.com") = true
   ∧ detect_race_type (py "https://race.netkeiba.com.nar.netkeiba.com/") = py "nar").
Proof. vm_compute. done. Qed.

(** The host of the first URL is the same under every runtime. *)
Lemma url_host_of_query_marker `{PythonRuntime} :
  url_host (py "https://example.com/?ref=nar.netkeiba.com") = py "example.com".
Proof. by vm_compute. Qed.
End Classifier.

Section MissingRaceId.
Context `{PythonRuntime}.

(** C1: a URL that parses and whose query has no [race_id] gives the empty
  string, not ["unknown"]. *)
Theorem extract_race_id_missing_parameter :
  extract_race_id (py "https://race.netkeiba.com/race/result.html?rf=race_list") = empty_str
  ∧ extract_race_id (py "https://race.netkeiba.com/race/result.html?rf=race_list") ≠ py "unknown".
Proof. vm_compute. split; [done|discriminate]. Qed.
End MissingRaceId.

Section RaceId.
Context `{PythonRuntime}.

Lemma extract_race_id_without_parameter (url : pystr) (r : urllib.SplitResult) :
  urllib.urlparse url = Ok r →
  urllib.parse_qs (urllib.query r) !! py "race_id" = None →
  extract_race_id url = empty_str.
Proof. intros Hp Hq. unfold extract_race_id. rewrite Hp. simpl. by rewrite Hq. Qed.

Lemma extract_race_id_malformed (url : pystr) (e : exn) :
  urllib.urlparse url = Raise e → extract_race_id url = py "unknown".
Proof. intros Hp. unfold extract_race_id. by rewrite Hp. Qed.

Lemma extract_race_id_unclosed_bracket :
  extract_race_id (py "http://[::1/result.html?race_id=5") = py "unknown".
Proof. by vm_compute. Qed.

Lemma extract_race_id_present :
  extract_race_id result_url = py "202406020111".
Proof. by vm_compute. Qed.
End RaceId.

(** ** Running code that fills a dictionary *)

Lemma run_bind {S A B : Type} (m : M S A) (f : A → M S B) (s : S) :
  (m ≫= f) s =
  match m s with
  | (s', Ok a) => f a s'
  | (s', Raise e) => (s', Raise e)
  end.
Proof. reflexivity. Qed.

Lemma run_fmap {S A B : Type} (g : A → B) (m : M S A) (s : S) :
  (g <$> m) s =
  match m s with
  | (s', Ok a) => (s', Ok (g a))
  | (s', Raise e) => (s', Raise e)
  end.
Proof. reflexivity. Qed.


Lemma preserves_ret {S A : Type} (P : S → Prop) (a : A) : preserves P (mret a).
Proof. by intros s. Qed.

Lemma preserves_await {S A : Type} (P : S → Prop) (o : outcome A) :
  preserves P (await o).
Proof. by intros s. Qed.

Lemma preserves_get_item {V : Type} (P : gmap pystr V → Prop) (k : pystr) :
  preserves P (get_item k).
Proof. by intros s. Qed.

Lemma preserves_bind {S A B : Type} (P : S → Prop) (m : M S A) (f : A → M S B) :
  preserves P m → (∀ a, preserves P (f a)) → preserves P (m ≫= f).
Proof.
  intros Hm Hf s Hs. rewrite run_bind. specialize (Hm s Hs).
  destruct (m s) as [s1 [a|e]]; simpl in *; [by apply Hf | done].
Qed.

Lemma preserves_fmap {S A B : Type} (P : S → Prop) (g : A → B) (m : M S A) :
  preserves P m → preserves P (g <$> m).
Proof.
  intros Hm s Hs. rewrite run_fmap. specialize (Hm s Hs).
  by destruct (m s) as [s1 [a|e]].
Qed.

Lemma preserves_for_each {S A : Type} (P : S → Prop) (xs : list A) (body : A → M S unit) :
  (∀ x, x ∈ xs → preserves P (body x)) → preserves P (for_each xs body).
Proof.
  induction xs as [|x xs IH]; intros Hb; simpl.
  - apply preserves_ret.
  - apply preserves_bind.
    + apply Hb. by left.
    + intros _. apply IH. intros y Hy. apply Hb. by right.
Qed.

Lemma keeps_key_preserves {V A : Type} (k : pystr) (m : M (gmap pystr V) A) :
  keeps_key k m ↔ ∀ o, preserves (λ d, d !! k = o) m.
Proof.
  split.
  - intros Hk o d Hd. by rewrite Hk.
  - intros Hp d. by apply (Hp (d !! k) d).
Qed.

Lemma keeps_ret {V A : Type} (k : pystr) (a : A) : keeps_key (V:=V) k (mret a).
Proof. by intros d. Qed.

Lemma keeps_await {V A : Type} (k : pystr) (o : outcome A) : keeps_key (V:=V) k (await o).
Proof. by intros d. Qed.

Lemma keeps_get_item {V : Type} (k k' : pystr) : keeps_key (V:=V) k (get_item k').
Proof. by intros d. Qed.

Lemma keeps_set_item {V : Type} (k k' : pystr) (v : V) : k' ≠ k → keeps_key k (set_item k' v).
Proof. intros Hne d. simpl. by rewrite lookup_insert_ne. Qed.

Lemma keeps_bind {V A B : Type} (k : pystr) (m : M (gmap pystr V) A) (f : A → M (gmap pystr V) B) :
  keeps_key k m → (∀ a, keeps_key k (f a)) → keeps_key k (m ≫= f).
Proof.
  rewrite !keeps_key_preserves. intros Hm Hf o. apply preserves_bind; [done|].
  intros a. specialize (Hf a). rewrite keeps_key_preserves in Hf. apply Hf.
Qed.

Lemma keeps_fmap {V A B : Type} (k : pystr) (g : A → B) (m : M (gmap pystr V) A) :
  keeps_key k m → keeps_key k (g <$> m).
Proof.
  rewrite !keeps_key_preserves. intros Hm o. by apply preserves_fmap.
Qed.

Lemma keeps_for_each {V A : Type} (k : pystr) (xs : list A) (body : A → M (gmap pystr V) unit) :
  (∀ x, keeps_key k (body x)) → keeps_key k (for_each xs body).
Proof.
  intros Hb. rewrite keeps_key_preserves. intros o. apply preserves_for_each.
  intros x _. specialize (Hb x). rewrite keeps_key_preserves in Hb. apply Hb.
Qed.

(** A key other than the ones a piece of code sets is kept by it. *)
Ltac keeps_step :=
  repeat first
    [ apply keeps_ret | apply keeps_await | apply keeps_get_item
    | apply keeps_set_item; congruence
    | apply keeps_fmap
    | apply keeps_bind; [|intros ?; cbv beta]
    | apply keeps_for_each; intros ?; cbv beta
    | match goal with
      | |- keeps_key _ (match ?x with _ => _ end) => destruct x
      end ].

Lemma preserves_await_bind {S A B : Type} (P : S → Prop) (o : outcome A) (f : A → M S B) :
  (∀ a, o = Ok a → preserves P (f a)) → preserves P (await o ≫= f).
Proof.
  intros Hf s Hs. rewrite run_bind. unfold await.
  destruct o as [a|e]; simpl; [by apply Hf | done].
Qed.

Lemma keeps_key_run {V A : Type} (k : pystr) (m : M (gmap pystr V) A)
    (d d' : gmap pystr V) (r : outcome A) :
  keeps_key k m → m d = (d', r) → d' !! k = d !! k.
Proof. intros Hk Hm. specialize (Hk d). by rewrite Hm in Hk. Qed.

Lemma last_filter_cons {A : Type} (f : A → bool) (x : A) (l : list A) :
  last (List.filter f (x :: l)) =
  match last (List.filter f l) with
  | Some y => Some y
  | None => if f x then Some x else None
  end.
Proof.
  simpl. destruct (f x); [|by destruct (last _)].
  destruct (List.filter f l) as [|y l'] eqn:E; [done|].
  rewrite last_cons. by destruct (last (y :: l')).
Qed.

Section RaceInfo.
Context `{PythonRuntime}.

Lemma race_data01_item_run (item : Element) (d : gmap pystr pystr) :
  race_data01_item item d =
  match inner_text item with
  | Ok t => (note_race_data01 (strip t) d, Ok ())
  | Raise e => (d, Raise e)
  end.
Proof.
  unfold race_data01_item, note_race_data01. rewrite run_bind, run_fmap.
  unfold await. destruct (inner_text item) as [t|e]; [|done].
  by destruct (is_distance (strip t)), (is_track_condition (strip t)).
Qed.

Lemma race_data02_item_run (item : Element) (d : gmap pystr pystr) :
  race_data02_item item d =
  match inner_text item with
  | Ok t => (note_race_data02 (strip t) d, Ok ())
  | Raise e => (d, Raise e)
  end.
Proof.
  unfold race_data02_item, note_race_data02. rewrite run_bind, run_fmap.
  unfold await. destruct (inner_text item) as [t|e]; [|done].
  by destruct (is_race_class (strip t)).
Qed.

Lemma inner_texts_cons (item : Element) (items : list Element) (texts : list pystr) :
  inner_texts (item :: items) = Ok texts →
  ∃ t ts, inner_text item = Ok t ∧ inner_texts items = Ok ts ∧ texts = t :: ts.
Proof.
  simpl. destruct (inner_text item) as [t|e]; [|discriminate]. simpl.
  destruct (inner_texts items) as [ts|e]; [|discriminate]. simpl.
  intros [= <-]. eauto.
Qed.

Lemma for_each_race_data01 (items : list Element) (texts : list pystr) (d : gmap pystr pystr) :
  inner_texts items = Ok texts →
  for_each items race_data01_item d =
  (foldl (λ d t, note_race_data01 t d) d (strip <$> texts), Ok ()).
Proof.
  revert texts d. induction items as [|item items IH]; intros texts d Ht.
  - simpl in Ht. by injection Ht as <-.
  - apply inner_texts_cons in Ht as (t & ts & Ht & Hts & ->).
    simpl. rewrite run_bind, race_data01_item_run, Ht. by apply IH.
Qed.

Lemma for_each_race_data02 (items : list Element) (texts : list pystr) (d : gmap pystr pystr) :
  inner_texts items = Ok texts →
  for_each items race_data02_item d =
  (foldl (λ d t, note_race_data02 t d) d (strip <$> texts), Ok ()).
Proof.
  revert texts d. induction items as [|item items IH]; intros texts d Ht.
  - simpl in Ht. by injection Ht as <-.
  - apply inner_texts_cons in Ht as (t & ts & Ht & Hts & ->).
    simpl. rewrite run_bind, race_data02_item_run, Ht. by apply IH.
Qed.

Lemma track_condition_not_distance (text : pystr) :
  is_track_condition text = true → is_distance text = false.
Proof.
  unfold is_track_condition, str_in, track_conditions.
  intros Ht%bool_decide_eq_true.
  repeat (apply elem_of_cons in Ht as [->|Ht]; [by vm_compute|]).
  by apply elem_of_nil in Ht.
Qed.

Lemma lookup_distance_foldl (ts : list pystr) (d : gmap pystr pystr) :
  foldl (λ d t, note_race_data01 t d) d ts !! py "distance" =
  match last (List.filter is_distance ts) with
  | Some t => Some t
  | None => d !! py "distance"
  end.
Proof.
  revert d. induction ts as [|t ts IH]; intros d; [done|].
  rewrite last_filter_cons. cbn [foldl]. rewrite IH.
  destruct (last (List.filter is_distance ts)); [done|].
  unfold note_race_data01. destruct (is_distance t).
  - by rewrite lookup_insert_eq.
  - destruct (is_track_condition t); [|done].
    rewrite lookup_insert_ne; [done|]. intros E. py_discriminate.
Qed.

Lemma lookup_track_condition_foldl (ts : list pystr) (d : gmap pystr pystr) :
  foldl (λ d t, note_race_data01 t d) d ts !! py "track_condition" =
  match last (List.filter is_track_condition ts) with
  | Some t => Some t
  | None => d !! py "track_condition"
  end.
Proof.
  revert d. induction ts as [|t ts IH]; intros d; [done|].
  rewrite last_filter_cons. cbn [foldl]. rewrite IH.
  destruct (last (List.filter is_track_condition ts)); [done|].
  unfold note_race_data01.
  destruct (is_track_condition t) eqn:Et.
  - rewrite (track_condition_not_distance _ Et). by rewrite lookup_insert_eq.
  - destruct (is_distance t); [|done].
    rewrite lookup_insert_ne; [done|]. intros E. py_discriminate.
Qed.

Lemma lookup_race_class_foldl (ts : list pystr) (d : gmap pystr pystr) :
  foldl (λ d t, note_race_data02 t d) d ts !! py "race_class" =
  match last (List.filter is_race_class ts) with
  | Some t => Some t
  | None => d !! py "race_class"
  end.
Proof.
  revert d. induction ts as [|t ts IH]; intros d; [done|].
  rewrite last_filter_cons. cbn [foldl]. rewrite IH.
  destruct (last (List.filter is_race_class ts)); [done|].
  unfold note_race_data02. destruct (is_race_class t); [|done].
  by rewrite lookup_insert_eq.
Qed.

Lemma lookup_race_data01_other (ts : list pystr) (d : gmap pystr pystr) (k : pystr) :
  k ≠ py "distance" → k ≠ py "track_condition" →
  foldl (λ d t, note_race_data01 t d) d ts !! k = d !! k.
Proof.
  intros Hd Ht. revert d. induction ts as [|t ts IH]; intros d; [done|].
  cbn [foldl]. rewrite IH. unfold note_race_data01.
  destruct (is_distance t); [by rewrite lookup_insert_ne|].
  destruct (is_track_condition t); [by rewrite lookup_insert_ne|done].
Qed.

Lemma lookup_race_data02_other (ts : list pystr) (d : gmap pystr pystr) (k : pystr) :
  k ≠ py "race_class" →
  foldl (λ d t, note_race_data02 t d) d ts !! k = d !! k.
Proof.
  intros Hk. revert d. induction ts as [|t ts IH]; intros d; [done|].
  cbn [foldl]. rewrite IH. unfold note_race_data02.
  destruct (is_race_class t); [by rewrite lookup_insert_ne|done].
Qed.

Lemma race_name_step_keeps (page : Page.t) (rt k : pystr) :
  k ≠ py "race_name" → keeps_key k (race_name_step page rt).
Proof.
  intros. unfold race_name_step. cbv zeta. keeps_step.
Qed.

Lemma race_data01_step_keeps (page : Page.t) (k : pystr) :
  k ≠ py "distance" → k ≠ py "track_condition" →
  keeps_key k (race_data01_step page).
Proof.
  intros. unfold race_data01_step, race_data01_item. cbv zeta. keeps_step.
Qed.

Lemma race_data02_step_keeps (page : Page.t) (k : pystr) :
  k ≠ py "race_class" → keeps_key k (race_data02_step page).
Proof.
  intros. unfold race_data02_step, race_data02_item. cbv zeta. keeps_step.
Qed.

Lemma race_number_step_keeps (page : Page.t) (k : pystr) :
  k ≠ py "race_number" → keeps_key k (race_number_step page).
Proof.
  intros. unfold race_number_step. cbv zeta. keeps_step.
Qed.

Lemma race_date_step_keeps (page : Page.t) (k : pystr) :
  k ≠ py "race_date" → keeps_key k (race_date_step page).
Proof.
  intros. unfold race_date_step. cbv zeta. keeps_step.
Qed.

Lemma page_title_step_keeps (page : Page.t) (k : pystr) :
  k ≠ py "page_title" → keeps_key k (page_title_step page).
Proof.
  intros. unfold page_title_step. cbv zeta. keeps_step.
Qed.


Lemma race_data01_step_run (page : Page.t) (items : list Element)
    (texts : list pystr) (d : gmap pystr pystr) :
  Page.query_selector_all page ".RaceData01 span" = Ok items →
  inner_texts items = Ok texts →
  race_data01_step page d =
  (foldl (λ d t, note_race_data01 t d) d (strip <$> texts), Ok ()).
Proof.
  intros Hq Ht. unfold race_data01_step. rewrite run_bind, Hq. simpl.
  by apply for_each_race_data01.
Qed.

Lemma race_data02_step_run (page : Page.t) (items : list Element)
    (texts : list pystr) (d : gmap pystr pystr) :
  Page.query_selector_all page ".RaceData02 span" = Ok items →
  inner_texts items = Ok texts →
  race_data02_step page d =
  (foldl (λ d t, note_race_data02 t d) d (strip <$> texts), Ok ()).
Proof.
  intros Hq Ht. unfold race_data02_step. rewrite run_bind, Hq. simpl.
  by apply for_each_race_data02.
Qed.

(** The steps after the two loops leave the three fields alone. *)
Lemma later_steps_keep (page : Page.t) (k : pystr) :
  k ≠ py "race_number" → k ≠ py "race_date" → k ≠ py "page_title" →
  keeps_key k (race_number_step page ≫= λ _,
               race_date_step page ≫= λ _, page_title_step page).
Proof.
  intros Hn Hd Hp.
  apply keeps_bind; [by apply race_number_step_keeps|]. intros _.
  apply keeps_bind; [by apply race_date_step_keeps|]. intros _.
  by apply page_title_step_keeps.
Qed.

Lemma texts_read_all (items : list Element) (texts : list pystr) :
  inner_texts items = Ok texts → texts_read items = texts.
Proof.
  revert texts. induction items as [|item items IH]; intros texts Ht.
  - simpl in Ht. by injection Ht as <-.
  - apply inner_texts_cons in Ht as (t & ts & Ht & Hts & ->).
    cbn [texts_read]. rewrite Ht. f_equal. by apply IH.
Qed.

(** What a loop over the spans has stored when it ends, by running out
    of spans or by an exception. *)
Lemma for_each_race_data01_state (items : list Element) (d : gmap pystr pystr) :
  (for_each items race_data01_item d).1 =
  foldl (λ d t, note_race_data01 t d) d (strip <$> texts_read items).
Proof.
  revert d. induction items as [|item items IH]; intros d; [done|].
  cbn [for_each texts_read]. rewrite run_bind, race_data01_item_run.
  destruct (inner_text item) as [t|e]; [|done].
  rewrite fmap_cons. cbn [foldl]. apply IH.
Qed.

Lemma for_each_race_data02_state (items : list Element) (d : gmap pystr pystr) :
  (for_each items race_data02_item d).1 =
  foldl (λ d t, note_race_data02 t d) d (strip <$> texts_read items).
Proof.
  revert d. induction items as [|item items IH]; intros d; [done|].
  cbn [for_each texts_read]. rewrite run_bind, race_data02_item_run.
  destruct (inner_text item) as [t|e]; [|done].
  rewrite fmap_cons. cbn [foldl]. apply IH.
Qed.

(** A key that the code after [m] keeps has the value that [m] left. *)
Lemma bind_state_key {V A B : Type} (k : pystr) (m : M (gmap pystr V) A)
    (f : A → M (gmap pystr V) B) (d : gmap pystr V) :
  (∀ a, keeps_key k (f a)) → ((m ≫= f) d).1 !! k = (m d).1 !! k.
Proof.
  intros Hf. rewrite run_bind.
  destruct (m d) as [s [a|e]]; [apply Hf | done].
Qed.

(** The race-name step on a page whose race name can be read. *)
Lemma race_name_step_readable (page : Page.t) (rt : pystr) (d : gmap pystr pystr) :
  selector_readable page ".RaceName" = true →
  ∃ d1, race_name_step page rt d = (d1, Ok ()).
Proof.
  unfold selector_readable, race_name_step. cbv zeta. intros Hr.
  assert (E : (if bool_decide (rt = py "nar") then ".RaceName"%string
               else ".RaceName"%string) = ".RaceName"%string)
    by (by destruct (bool_decide _)).
  rewrite E, run_bind. unfold await at 1.
  destruct (Page.query_selector page ".RaceName") as [[e|]|err];
    [| by eexists | done].
  rewrite run_bind. unfold await.
  destruct (inner_text e) as [t|err]; [by eexists | done].
Qed.

(** C10, as amended: on a page whose race name is read without an
  exception, the distance and the track condition are each the text of
  the last [.RaceData01] span that passes the field's test among the
  spans read, that is the spans in document order up to the first whose
  text raises; when all of those are read, the race class is the same
  among the [.RaceData02] spans.  With every span of a region read, the
  field is the last match of the region: a later match overwrites an
  earlier one. *)
Theorem last_matching_span_wins (page : Page.t) (rt : pystr)
    (items1 : list Element) :
  selector_readable page ".RaceName" = true →
  Page.query_selector_all page ".RaceData01 span" = Ok items1 →
  (extract_race_info page rt !! py "distance"
     = last (List.filter is_distance (strip <$> texts_read items1)) ∧
   extract_race_info page rt !! py "track_condition"
     = last (List.filter is_track_condition (strip <$> texts_read items1))) ∧
  (∀ items2 : list Element,
      succeeds (inner_texts items1) = true →
      Page.query_selector_all page ".RaceData02 span" = Ok items2 →
      extract_race_info page rt !! py "race_class"
        = last (List.filter is_race_class (strip <$> texts_read items2))) ∧
  (∀ texts1 : list pystr,
      inner_texts items1 = Ok texts1 →
      extract_race_info page rt !! py "distance"
        = last (List.filter is_distance (strip <$> texts1)) ∧
      extract_race_info page rt !! py "track_condition"
        = last (List.filter is_track_condition (strip <$> texts1)) ∧
      ∀ (items2 : list Element) (texts2 : list pystr),
        Page.query_selector_all page ".RaceData02 span" = Ok items2 →
        inner_texts items2 = Ok texts2 →
        extract_race_info page rt !! py "race_class"
          = last (List.filter is_race_class (strip <$> texts2))).
Proof.
  intros Hname Hq1.
  destruct (race_name_step_readable page rt ∅ Hname) as [d1 E1].
  assert (K1 : ∀ k, k ≠ py "race_name" → d1 !! k = None).
  { intros k Hk.
    rewrite (keeps_key_run _ _ _ _ _ (race_name_step_keeps page rt k Hk) E1).
    apply lookup_empty. }
  assert (R1 : ∀ d, (race_data01_step page d).1
                    = foldl (λ d t, note_race_data01 t d) d
                        (strip <$> texts_read items1)).
  { intros d. unfold race_data01_step. rewrite run_bind, Hq1. simpl.
    apply for_each_race_data01_state. }
  assert (D : extract_race_info page rt !! py "distance"
              = last (List.filter is_distance (strip <$> texts_read items1))).
  { unfold extract_race_info, guarded, race_info_body.
    rewrite run_bind, E1.
    rewrite bind_state_key.
    - rewrite R1, lookup_distance_foldl, K1 by (intros E; py_discriminate).
      by destruct (last _).
    - intros _. apply keeps_bind.
      + apply race_data02_step_keeps. intros E; py_discriminate.
      + intros _. apply later_steps_keep; intros E; py_discriminate. }
  assert (T : extract_race_info page rt !! py "track_condition"
              = last (List.filter is_track_condition
                        (strip <$> texts_read items1))).
  { unfold extract_race_info, guarded, race_info_body.
    rewrite run_bind, E1.
    rewrite bind_state_key.
    - rewrite R1, lookup_track_condition_foldl, K1
        by (intros E; py_discriminate).
      by destruct (last (List.filter is_track_condition _)).
    - intros _. apply keeps_bind.
      + apply race_data02_step_keeps. intros E; py_discriminate.
      + intros _. apply later_steps_keep; intros E; py_discriminate. }
  assert (C : ∀ items2 : list Element,
             succeeds (inner_texts items1) = true →
             Page.query_selector_all page ".RaceData02 span" = Ok items2 →
             extract_race_info page rt !! py "race_class"
             = last (List.filter is_race_class (strip <$> texts_read items2))).
  { intros items2 Hall Hq2.
    destruct (inner_texts items1) as [texts1|err] eqn:Ht1; [|done].
    unfold extract_race_info, guarded, race_info_body.
    rewrite run_bind, E1.
    rewrite run_bind, (race_data01_step_run _ _ _ _ Hq1 Ht1).
    rewrite bind_state_key.
    - unfold race_data02_step. rewrite run_bind, Hq2. simpl.
      rewrite for_each_race_data02_state, lookup_race_class_foldl.
      rewrite lookup_race_data01_other by (intros E; py_discriminate).
      rewrite K1 by (intros E; py_discriminate).
      by destruct (last (List.filter is_race_class _)).
    - intros _. apply later_steps_keep; intros E; py_discriminate. }
  split; [by split|]. split; [exact C|].
  intros texts1 Ht1.
  rewrite <- (texts_read_all items1 texts1 Ht1).
  split; [exact D|]. split; [exact T|].
  intros items2 texts2 Hq2 Ht2.
  rewrite <- (texts_read_all items2 texts2 Ht2).
  apply C; [|exact Hq2]. by rewrite Ht1.
Qed.
End RaceInfo.

(** ** The track condition *)
Lemma keeps_key_preserves_by {V A : Type} (P : gmap pystr V → Prop) (k : pystr)
    (m : M (gmap pystr V) A) :
  (∀ d d', d' !! k = d !! k → P d → P d') →
  keeps_key k m → preserves P m.
Proof. intros HP Hk d Hd. apply (HP d); [apply Hk | done]. Qed.

Section TrackCondition.
Context `{PythonRuntime}.

Lemma track_condition_from_span_keeps {A : Type} (page : Page.t) (m : M (gmap pystr pystr) A) :
  keeps_key (py "track_condition") m →
  preserves (track_condition_from_span page) m.
Proof.
  apply keeps_key_preserves_by. intros d d' E Hd v Hv.
  apply Hd. by rewrite <- E.
Qed.

Lemma race_data01_step_track_condition (page : Page.t) :
  preserves (track_condition_from_span page) (race_data01_step page).
Proof.
  unfold race_data01_step. apply preserves_await_bind. intros items Hq.
  apply preserves_for_each. intros item Hitem d Hd.
  rewrite race_data01_item_run.
  destruct (inner_text item) as [t|e] eqn:Et; [|done]. simpl.
  unfold note_race_data01.
  destruct (is_distance (strip t)).
  { intros v Hv. apply Hd. rewrite lookup_insert_ne in Hv; [done|].
    intros E. py_discriminate. }
  destruct (is_track_condition (strip t)) eqn:Ec; [|done].
  intros v Hv. rewrite lookup_insert_eq in Hv. injection Hv as <-. split.
  - by apply bool_decide_eq_true in Ec.
  - by exists items, item, t.
Qed.

(** C7: on every page, a track condition in the race information is one of
  the four condition strings, and it is the stripped text of a
  [.RaceData01] span; so a span whose text is outside the four never
  sets the field. *)
Theorem track_condition_closed_set (page : Page.t) (rt v : pystr) :
  extract_race_info page rt !! py "track_condition" = Some v →
  v ∈ track_conditions ∧
  ∃ items item text,
    Page.query_selector_all page ".RaceData01 span" = Ok items ∧
    item ∈ items ∧ inner_text item = Ok text ∧ strip text = v.
Proof.
  revert v. change (track_condition_from_span page (extract_race_info page rt)).
  unfold extract_race_info, guarded, race_info_body.
  assert (P0 : track_condition_from_span page ∅).
  { intros v Hv. by rewrite lookup_empty in Hv. }
  revert P0. generalize (∅ : gmap pystr pystr). 
  apply preserves_bind.
  { apply track_condition_from_span_keeps, race_name_step_keeps.
    intros E. py_discriminate. }
  intros _. apply preserves_bind; [apply race_data01_step_track_condition|].
  intros _. apply preserves_bind.
  { apply track_condition_from_span_keeps, race_data02_step_keeps.
    intros E. py_discriminate. }
  intros _. apply preserves_bind.
  { apply track_condition_from_span_keeps, race_number_step_keeps.
    intros E. py_discriminate. }
  intros _. apply preserves_bind.
  { apply track_condition_from_span_keeps, race_date_step_keeps.
    intros E. py_discriminate. }
  intros _.
  apply track_condition_from_span_keeps, page_title_step_keeps.
  intros E. py_discriminate.
Qed.
End TrackCondition.

(** ** The race date *)
Lemma lstrip_by_app (f : N → bool) (pre s : pystr) (c : N) :
  f c = false →
  lstrip_by f (pre ++ c :: s) = lstrip_by f pre ++ c :: s.
Proof.
  intros Hc. induction pre as [|a pre IH]; simpl.
  - by rewrite Hc.
  - by destruct (f a).
Qed.

Lemma rstrip_by_app (f : N → bool) (s post : pystr) (c : N) :
  f c = false →
  rstrip_by f (s ++ c :: post) = s ++ c :: rstrip_by f post.
Proof.
  intros Hc. unfold rstrip_by.
  rewrite rev_app_distr. simpl. rewrite <- app_assoc. simpl.
  rewrite lstrip_by_app by done.
  rewrite rev_app_distr. simpl. rewrite rev_involutive.
  by rewrite <- app_assoc.
Qed.

Lemma lstrip_by_suffix (f : N → bool) (s : pystr) :
  ∃ dropped, s = dropped ++ lstrip_by f s.
Proof.
  induction s as [|a s [dr IH]]; simpl.
  - by exists [].
  - destruct (f a); [|by exists []].
    exists (a :: dr). simpl. by f_equal.
Qed.

Section Date.
Context `{PythonRuntime}.

Example date_literals : py "年月日" = [24180; 26376; 26085].
Proof. reflexivity. Qed.

Lemma match_date_groups (s year month day : pystr) :
  re.match_date s = Some (year, month, day) →
  length year = 4%nat ∧
  (length month = 1%nat ∨ length month = 2%nat) ∧
  (length day = 1%nat ∨ length day = 2%nat).
Proof.
  unfold re.match_date, re.digits4, re.lit, re.digits12.
  intros Hm.
  repeat (case_match; try discriminate); simplify_eq; simpl; auto.
Qed.

Lemma search_date_groups (s year month day : pystr) :
  re.search_date s = Some (year, month, day) →
  length year = 4%nat ∧
  (length month = 1%nat ∨ length month = 2%nat) ∧
  (length day = 1%nat ∨ length day = 2%nat).
Proof.
  induction s as [|a s IH]; cbn [re.search_date].
  - destruct (re.match_date []) as [g|] eqn:E; [|discriminate].
    intros [= ->]. by apply match_date_groups in E.
  - destruct (re.match_date (a :: s)) as [g|] eqn:E; [|done].
    intros [= ->]. by apply match_date_groups in E.
Qed.

Lemma zfill_2_length (s : pystr) :
  length s = 1%nat ∨ length s = 2%nat → length (zfill 2 s) = 2%nat.
Proof.
  destruct s as [|a [|b [|c s]]]; simpl; intros [?|?]; try discriminate;
    unfold zfill; simpl; by destruct (_ || _).
Qed.

Lemma match_date_no_digit (c : N) (s : pystr) :
  str_isdecimal c = false → re.match_date (c :: s) = None.
Proof.
  intros Hc. unfold re.match_date, re.digits4.
  destruct s as [|b [|c' [|d s]]]; try done. by rewrite Hc.
Qed.

Lemma search_date_skip (pre s : pystr) :
  Forall (λ c, str_isdecimal c = false) pre →
  re.search_date (pre ++ s) = re.search_date s.
Proof.
  induction 1 as [|c pre Hc _ IH]; [done|].
  cbn [app re.search_date]. by rewrite match_date_no_digit.
Qed.

Lemma search_date_2024_03_10 (post : pystr) :
  (∀ c, ascii_isdigit c = true → str_isdecimal c = true) →
  re.search_date (py "2024年3月10日" ++ post) = Some (py "2024", py "3", py "10").
Proof.
  intros Hd.
  assert (D : ∀ c, ascii_isdigit c = true → str_isdecimal c = true) by done.
  change (py "2024年3月10日") with [50; 48; 50; 52; 24180; 51; 26376; 49; 48; 26085].
  cbn [app re.search_date].
  unfold re.match_date, re.digits4, re.lit, re.digits12.
  rewrite !(D 50), !(D 48), (D 52), (D 51), (D 49) by done. simpl.
  by destruct (str_isdecimal 26376).
Qed.

Lemma race_date_step_run (page : Page.t) (e : Element) (title : pystr)
    (d : gmap pystr pystr) :
  Page.query_selector page "title" = Ok (Some e) →
  inner_text e = Ok title →
  race_date_step page d =
  (match re.search_date (strip title) with
   | Some (year, month, day) =>
       <[py "race_date" :=
           year ++ py "/" ++ zfill 2 month ++ py "/" ++ zfill 2 day]> d
   | None => d
   end, Ok ()).
Proof.
  intros Hq Ht. unfold race_date_step.
  rewrite run_bind, Hq. simpl. rewrite run_bind, run_fmap, Ht. simpl.
  by destruct (re.search_date (strip title)) as [[[y m] dd]|].
Qed.

Lemma strip_around (pre post : pystr) :
  ∃ pre' post',
    (∃ dropped, pre = dropped ++ pre') ∧
    strip (pre ++ py "2024年3月10日" ++ post) = pre' ++ py "2024年3月10日" ++ post'.
Proof.
  unfold strip.
  change (py "2024年3月10日") with [50; 48; 50; 52; 24180; 51; 26376; 49; 48; 26085].
  exists (lstrip_by isspace pre), (rstrip_by isspace post). split.
  - apply lstrip_by_suffix.
  - simpl. rewrite lstrip_by_app by done.
    change (lstrip_by isspace pre ++ 50 :: 48 :: 50 :: 52 :: 24180 :: 51 :: 26376 :: 49 :: 48 :: 26085 :: post)
      with (lstrip_by isspace pre ++ [50; 48; 50; 52; 24180; 51; 26376; 49; 48] ++ 26085 :: post).
    rewrite app_assoc. rewrite rstrip_by_app by done.
    by rewrite <- app_assoc.
Qed.

Lemma race_date_from_title_keeps {A : Type} (page : Page.t)
    (m : M (gmap pystr pystr) A) :
  keeps_key (py "race_date") m →
  preserves (race_date_from_title page) m.
Proof.
  apply keeps_key_preserves_by. intros d d' E Hd v Hv.
  apply Hd. by rewrite <- E.
Qed.

Lemma race_date_step_from_title (page : Page.t) :
  preserves (race_date_from_title page) (race_date_step page).
Proof.
  unfold race_date_step. apply preserves_await_bind.
  intros [e|] Hq; [|apply preserves_ret].
  intros d Hd. rewrite run_bind, run_fmap. unfold await.
  destruct (inner_text e) as [title|err] eqn:Ht; [|done]. simpl.
  destruct (re.search_date (strip title)) as [[[y m] dd]|] eqn:Hs; [|done].
  intros v Hv. simpl in Hv. rewrite lookup_insert_eq in Hv. injection Hv as <-.
  exists e, title, y, m, dd.
  apply search_date_groups in Hs as Hg. destruct Hg as (_ & Hm & Hdd).
  repeat split; try done; by apply zfill_2_length.
Qed.

Lemma race_info_date_from_title (page : Page.t) (rt : pystr) :
  race_date_from_title page (extract_race_info page rt).
Proof.
  unfold extract_race_info, guarded, race_info_body.
  assert (P0 : race_date_from_title page ∅).
  { intros v Hv. by rewrite lookup_empty in Hv. }
  revert P0. generalize (∅ : gmap pystr pystr).
  apply preserves_bind.
  { apply race_date_from_title_keeps, race_name_step_keeps.
    intros E. py_discriminate. }
  intros _. apply preserves_bind.
  { apply race_date_from_title_keeps, race_data01_step_keeps;
      intros E; py_discriminate. }
  intros _. apply preserves_bind.
  { apply race_date_from_title_keeps, race_data02_step_keeps.
    intros E. py_discriminate. }
  intros _. apply preserves_bind.
  { apply race_date_from_title_keeps, race_number_step_keeps.
    intros E. py_discriminate. }
  intros _. apply preserves_bind; [apply race_date_step_from_title|].
  intros _.
  apply race_date_from_title_keeps, page_title_step_keeps.
  intros E. py_discriminate.
Qed.

(** A match of the date pattern has 年 as its fifth character. *)
Lemma match_date_needs_year (s : pystr) (g : pystr * pystr * pystr) :
  re.match_date s = Some g → s !! 4%nat = Some 24180.
Proof.
  unfold re.match_date, re.digits4, re.lit.
  destruct s as [|a [|b [|c [|d [|y s]]]]]; try done.
  - by destruct (_ && _).
  - destruct (_ && _); [|done].
    destruct (y =? 24180) eqn:E; [|done].
    apply N.eqb_eq in E. by subst y.
Qed.

Lemma search_date_skip_year (pre post : pystr) :
  Forall (λ c, c ≠ 24180) pre →
  re.search_date (pre ++ py "2024年3月10日" ++ post)
  = re.search_date (py "2024年3月10日" ++ post).
Proof.
  change (py "2024年3月10日") with [50; 48; 50; 52; 24180; 51; 26376; 49; 48; 26085].
  induction 1 as [|c pre Hc Hpre IH]; [done|].
  cbn [app re.search_date].
  destruct (re.match_date _) as [g|] eqn:E; [|exact IH].
  exfalso. apply match_date_needs_year in E.
  destruct pre as [|p1 [|p2 [|p3 [|p4 pre]]]]; try discriminate E.
  simpl in E. injection E as E.
  do 3 (apply Forall_cons in Hpre as [_ Hpre]).
  by apply Forall_cons in Hpre as [Hp4 _].
Qed.

(** The steps before the date step, on a page whose header can be
    read. *)
Lemma race_data01_step_readable (page : Page.t) (d : gmap pystr pystr) :
  spans_readable page ".RaceData01 span" = true →
  ∃ d', race_data01_step page d = (d', Ok ()).
Proof.
  unfold spans_readable.
  destruct (Page.query_selector_all page ".RaceData01 span")
    as [items|err] eqn:Hq; [|done].
  destruct (inner_texts items) as [texts|err] eqn:Ht; [|done].
  intros _. eexists. by apply (race_data01_step_run _ _ _ _ Hq Ht).
Qed.

Lemma race_data02_step_readable (page : Page.t) (d : gmap pystr pystr) :
  spans_readable page ".RaceData02 span" = true →
  ∃ d', race_data02_step page d = (d', Ok ()).
Proof.
  unfold spans_readable.
  destruct (Page.query_selector_all page ".RaceData02 span")
    as [items|err] eqn:Hq; [|done].
  destruct (inner_texts items) as [texts|err] eqn:Ht; [|done].
  intros _. eexists. by apply (race_data02_step_run _ _ _ _ Hq Ht).
Qed.

Lemma race_number_step_readable (page : Page.t) (d : gmap pystr pystr) :
  selector_readable page ".RaceNum" = true →
  ∃ d', race_number_step page d = (d', Ok ()).
Proof.
  unfold selector_readable, race_number_step.
  rewrite run_bind. unfold await at 1.
  destruct (Page.query_selector page ".RaceNum") as [[e|]|err];
    [| by eexists | done].
  rewrite run_bind, run_fmap. unfold await.
  destruct (inner_text e) as [t|err]; [|done]. intros _.
  destruct (re.search_number (strip t)); by eexists.
Qed.

Lemma page_title_step_readable (page : Page.t) (e : Element) (title : pystr)
    (d : gmap pystr pystr) :
  Page.query_selector page "title" = Ok (Some e) →
  inner_text e = Ok title →
  ∃ d', page_title_step page d = (d', Ok ()).
Proof.
  intros Hq Ht. unfold page_title_step. rewrite run_bind. cbn [get_item].
  destruct (negb _); [|by eexists].
  rewrite run_bind. unfold await at 1. rewrite Hq.
  rewrite run_bind. unfold await. rewrite Ht. by eexists.
Qed.

(** C8, as amended: a race date in the race information is always the year
  of the leftmost date of the page title, a slash, the month filled to
  two characters, a slash, the day filled to two characters.  On a page
  whose race name, spans and race number are read without an exception
  and whose title is read, the extraction raises nothing and the race
  date is that of the leftmost date of the title; a title that shows
  2024年3月10日 with no decimal digit before it, or with no 年 before
  it, gives 2024/03/10. *)
Theorem race_date_zero_padded (page : Page.t) (rt : pystr) :
  (∀ v : pystr,
      extract_race_info page rt !! py "race_date" = Some v →
      ∃ (e : Element) (title year month day : pystr),
        Page.query_selector page "title" = Ok (Some e) ∧
        inner_text e = Ok title ∧
        re.search_date (strip title) = Some (year, month, day) ∧
        v = year ++ py "/" ++ zfill 2 month ++ py "/" ++ zfill 2 day ∧
        length (zfill 2 month) = 2%nat ∧ length (zfill 2 day) = 2%nat)
  ∧ (∀ (e : Element) (title : pystr),
      selector_readable page ".RaceName" = true →
      spans_readable page ".RaceData01 span" = true →
      spans_readable page ".RaceData02 span" = true →
      selector_readable page ".RaceNum" = true →
      Page.query_selector page "title" = Ok (Some e) →
      inner_text e = Ok title →
      (race_info_body page rt ∅).2 = Ok ()
      ∧ (∀ year month day : pystr,
          re.search_date (strip title) = Some (year, month, day) →
          extract_race_info page rt !! py "race_date"
            = Some (year ++ py "/" ++ zfill 2 month ++ py "/" ++ zfill 2 day))
      ∧ ((∀ c, ascii_isdigit c = true → str_isdecimal c = true) →
         ∀ pre post : pystr,
           title = pre ++ py "2024年3月10日" ++ post →
           Forall (λ c, str_isdecimal c = false) pre
             ∨ Forall (λ c, c ≠ 24180) pre →
           extract_race_info page rt !! py "race_date" = Some (py "2024/03/10"))).
Proof.
  split; [apply race_info_date_from_title|].
  intros e title Hname H01 H02 Hnum Hq Ht.
  destruct (race_name_step_readable page rt ∅ Hname) as [d1 E1].
  destruct (race_data01_step_readable page d1 H01) as [d2 E2].
  destruct (race_data02_step_readable page d2 H02) as [d3 E3].
  destruct (race_number_step_readable page d3 Hnum) as [d4 E4].
  pose proof (race_date_step_run page e title d4 Hq Ht) as E5.
  destruct (page_title_step_readable page e title
              (race_date_step page d4).1 Hq Ht) as [d6 E6].
  assert (Hbody : race_info_body page rt ∅ = (d6, Ok ())).
  { unfold race_info_body.
    rewrite run_bind, E1, run_bind, E2, run_bind, E3, run_bind, E4, run_bind.
    destruct (race_date_step page d4) as [d5 r5] eqn:E.
    injection E5 as E5 ->. exact E6. }
  assert (K : extract_race_info page rt !! py "race_date" =
              match re.search_date (strip title) with
              | Some (year, month, day) =>
                  Some (year ++ py "/" ++ zfill 2 month ++ py "/" ++ zfill 2 day)
              | None => d4 !! py "race_date"
              end).
  { unfold extract_race_info, guarded. rewrite Hbody. cbn [fst].
    rewrite (keeps_key_run _ _ _ _ _
               (page_title_step_keeps page (py "race_date")
                  ltac:(intros E; py_discriminate)) E6).
    rewrite E5. cbn [fst].
    destruct (re.search_date (strip title)) as [[[y m] dd]|]; [|done].
    by rewrite lookup_insert_eq. }
  split; [by rewrite Hbody|]. split.
  - intros year month day Hs. by rewrite K, Hs.
  - intros Hdig pre post -> Hpre.
    destruct (strip_around pre post) as (pre' & post' & [dr Hdr] & Hs).
    rewrite K, Hs. subst pre.
    destruct Hpre as [Hpre|Hpre]; apply Forall_app in Hpre as [_ Hpre].
    + rewrite search_date_skip by done. by rewrite search_date_2024_03_10.
    + rewrite search_date_skip_year by done. by rewrite search_date_2024_03_10.
Qed.
End Date.

(** ** The results table and the run *)
Lemma for_each_app {S A : Type} (xs ys : list A) (body : A → M S unit) (s : S) :
  for_each (xs ++ ys) body s =
  match for_each xs body s with
  | (s', Ok _) => for_each ys body s'
  | (s', Raise e) => (s', Raise e)
  end.
Proof.
  revert s. induction xs as [|x xs IH]; intros s; [done|].
  cbn [app for_each]. rewrite !run_bind.
  destruct (body x s) as [s1 [[]|e]]; [apply IH | done].
Qed.

Section Horses.

Lemma horse_row_short (rt : pystr) (row : Element) (cells : list Element) :
  query_selector_all row "td" = Ok cells →
  (length cells < layout_minimum rt)%nat →
  horse_row rt row = Ok None.
Proof.
  intros Hq Hlen. unfold horse_row. rewrite Hq. simpl.
  unfold row_layout. unfold layout_minimum in Hlen.
  destruct (bool_decide (rt = py "nar")).
  - apply Nat.ltb_lt in Hlen. by rewrite Hlen.
  - apply Nat.ltb_lt in Hlen. by rewrite Hlen.
Qed.

Lemma horse_row_some_cells (rt : pystr) (row : Element) (h : gmap pystr pystr) :
  horse_row rt row = Ok (Some h) →
  ∃ cells, query_selector_all row "td" = Ok cells ∧
           (layout_minimum rt ≤ length cells)%nat.
Proof.
  unfold horse_row. destruct (query_selector_all row "td") as [cells|e]; [|done].
  simpl. intros Hh. exists cells. split; [done|].
  unfold row_layout in Hh. unfold layout_minimum.
  destruct (bool_decide (rt = py "nar")).
  - destruct (length cells <? 12)%nat eqn:E; [done|]. by apply Nat.ltb_ge.
  - destruct (length cells <? 13)%nat eqn:E; [done|]. by apply Nat.ltb_ge.
Qed.

Lemma horse_rows_app (rt : pystr) (a b : list Element)
    (acc : list (gmap pystr pystr)) :
  horse_rows rt (a ++ b) acc = horse_rows rt b (horse_rows rt a acc).
Proof. revert acc. induction a as [|r a IH]; intros acc; [done|]. apply IH. Qed.

Lemma horse_rows_elem (rt : pystr) (rows : list Element)
    (acc : list (gmap pystr pystr)) (h : gmap pystr pystr) :
  h ∈ horse_rows rt rows acc →
  h ∈ acc ∨ ∃ row, row ∈ rows ∧ horse_row rt row = Ok (Some h).
Proof.
  revert acc. induction rows as [|r rows IH]; intros acc; simpl; [by left|].
  intros Hh. apply IH in Hh as [Hh|(row & Hrow & Hh)].
  - destruct (horse_row rt r) as [[h'|]|e] eqn:E; [|by left..].
    apply elem_of_app in Hh as [Hh|Hh]; [by left|].
    apply list_elem_of_singleton in Hh as ->. right. exists r.
    split; [by left | done].
  - right. exists row. split; [by right | done].
Qed.

(** C6: a row with fewer cells than the minimum of the layout (12 local,
  13 central) is passed over: the horses are those of the table without
  that row, and every horse emitted comes from a row with at least the
  minimum of cells. *)
Theorem short_row_excluded (page : Page.t) (rt : pystr) (sel : string)
    (pre post : list Element) (row : Element) (cells : list Element) :
  wait_for_table page rt = Some sel →
  Page.query_selector_all page sel = Ok (pre ++ row :: post) →
  query_selector_all row "td" = Ok cells →
  (length cells < layout_minimum rt)%nat →
  horse_row rt row = Ok None ∧
  extract_horses_data page rt = Ok (horse_rows rt (pre ++ post) []) ∧
  ∀ h, h ∈ horse_rows rt (pre ++ row :: post) [] →
    ∃ r cs, r ∈ pre ++ post ∧ horse_row rt r = Ok (Some h) ∧
            query_selector_all r "td" = Ok cs ∧
            (layout_minimum rt ≤ length cs)%nat.
Proof.
  intros Hw Hq Hc Hlen.
  pose proof (horse_row_short rt row cells Hc Hlen) as Hrow.
  assert (Hskip : horse_rows rt (pre ++ row :: post) []
                  = horse_rows rt (pre ++ post) []).
  { rewrite !horse_rows_app. simpl. by rewrite Hrow. }
  split; [done|]. split.
  - unfold extract_horses_data. rewrite Hw, Hq. simpl. by rewrite Hskip.
  - intros h Hh. rewrite Hskip in Hh.
    apply horse_rows_elem in Hh as [Hh|(r & Hr & Hh)].
    { by apply elem_of_nil in Hh. }
    destruct (horse_row_some_cells rt r h Hh) as (cs & Hcs & Hmin).
    by exists r, cs.
Qed.

Lemma wait_for_table_absent (page : Page.t) (rt : pystr) :
  succeeds (Page.wait_for_selector page (table_selector rt)) = false →
  succeeds (Page.wait_for_selector page (fallback_table_selector rt)) = false →
  wait_for_table page rt = None.
Proof.
  unfold wait_for_table.
  destruct (Page.wait_for_selector page (table_selector rt)); [done|].
  by destruct (Page.wait_for_selector page (fallback_table_selector rt)).
Qed.

(** C4: on a central-layout row whose corner-passage cell holds a
  no-break space, the emitted horse has the key [corner_passage] with the
  empty string: the text is tested before it is stripped. *)
Theorem corner_passage_present_but_empty :
  ∃ h : gmap pystr pystr,
    extract_horses_data blank_passage_page (py "jra") = Ok [h] ∧
    h !! py "corner_passage" = Some (empty_str) ∧
    h !! py "last_3f" = Some (py "33.5").
Proof. eexists. vm_compute. repeat split. Qed.

End Horses.

Section Run.
Context `{PythonRuntime}.

(** C9: when both waits for the results table raise, the extractor returns
  no horse; the scrape returns the record made of the URL, its race id
  and race type, the race information, the corner mapping and the lap
  mapping of the page, with an empty [horses]; and the program writes
  that record to [output/race_data_<race id>.json] and ends with exit
  code 0 (navigation, closing the browser and the two calls of the file
  system returning, and the standard output taking every line, the
  diagnostic ones of the handlers included, and the JSON text of the
  record). *)
Theorem absent_table_record_still_written (out : Console) (p : Playwright)
    (fs : FileSystem) (browser : Browser) (page : Page.t) (prog url : pystr) :
  let record :=
    {| race_url := url;
       race_id := extract_race_id url;
       race_type := detect_race_type url;
       race_info := extract_race_info page (detect_race_type url);
       horses := [];
       corner_passing_order := extract_corner_data page;
       lap_times := extract_lap_times page |} in
  let output_file := py "output/race_data_" ++ extract_race_id url ++ py ".json" in
  launch p = Ok browser →
  new_page browser = Ok page →
  Page.goto page url = Ok () →
  close browser = Ok () →
  succeeds (Page.wait_for_selector page
              (table_selector (detect_race_type url))) = false →
  succeeds (Page.wait_for_selector page
              (fallback_table_selector (detect_race_type url))) = false →
  makedirs fs (py "output") = Ok () →
  dump_json fs output_file record = Ok () →
  (∀ line : pystr, print out line = Ok ()) →
  print_json out record = Ok () →
  extract_horses_data page (detect_race_type url) = Ok [] ∧
  scrape_race_data p url = Ok record ∧
  main out [prog; url] p fs
    = {| exit_code := 0; written := Some (output_file, record) |}.
Proof.
  intros record output_file Hl Hn Hg Hc Hw1 Hw2 Hm Hd Hp Hp3.
  assert (Hh : extract_horses_data page (detect_race_type url) = Ok []).
  { unfold extract_horses_data. by rewrite wait_for_table_absent. }
  assert (Hs : scrape_race_data p url = Ok record).
  { unfold scrape_race_data. rewrite Hl. simpl. rewrite Hn. simpl.
    rewrite Hg. simpl. rewrite Hh. simpl. rewrite Hc. reflexivity. }
  split; [done|]. split; [done|].
  unfold main. change (length [prog; url] <? 2)%nat with false.
  cbv iota zeta. change (default [] ([prog; url] !! 1%nat)) with url.
  rewrite Hp. cbn [mbind outcome_bind]. rewrite Hs. cbn [mbind outcome_bind].
  change (race_id record) with (extract_race_id url).
  fold output_file. rewrite Hm. cbn [mbind outcome_bind].
  rewrite Hd. cbn [mbind outcome_bind]. cbv iota beta.
  rewrite Hp. cbn [mbind outcome_bind]. by rewrite Hp3.
Qed.
End Run.

Lemma bind_Ok {A B : Type} (a : A) (f : A → outcome B) : (Ok a ≫= f) = f a.
Proof. reflexivity. Qed.

(** The corner-passage key of an emitted row: present exactly when the
    text read for it is non-empty, with that text stripped. *)
Lemma corner_passage_key (rt : pystr) (row : Element) (h : gmap pystr pystr) :
  horse_row rt row = Ok (Some h) →
  ∃ raw : pystr,
    h !! py "corner_passage" = (if truthy raw then Some (strip raw) else None).
Proof.
  unfold horse_row. intros Hh.
  destruct (query_selector_all row "td") as [cells|]; [|done].
  rewrite bind_Ok in Hh.
  destruct (row_layout rt (length cells)) as [[[ti li] ci]|]; [|done].
  repeat match type of Hh with
         | (?o ≫= _) = _ =>
             destruct o; [rewrite bind_Ok in Hh | discriminate Hh]
         end.
  match type of Hh with
  | context [truthy ?cp] => exists cp; destruct (truthy cp)
  end; injection Hh as <-.
  - by rewrite lookup_insert_eq.
  - rewrite !lookup_insert_ne by (intros E; py_discriminate).
    apply lookup_empty.
Qed.

(** ** Corner passing order and lap times *)
Section CornerAndLap.

(** Whether a corner row raises does not depend on what was stored
    before, and a row that raises stores nothing. *)
Lemma corner_row_outcome (row : Element) (d d' : gmap pystr pystr) :
  (corner_row row d).2 = (corner_row row d').2.
Proof.
  unfold corner_row. rewrite !run_bind. unfold await.
  destruct (query_selector row "th strong") as [[header|]|e]; try done.
  rewrite !run_bind.
  destruct (inner_text header) as [corner_num|e]; try done.
  rewrite !run_bind.
  destruct (query_selector row "td") as [[order_cell|]|e]; try done.
  rewrite !run_bind.
  by destruct (inner_text order_cell) as [order_text|e].
Qed.

Lemma corner_row_raise_state (row : Element) (d : gmap pystr pystr) (e : exn) :
  (corner_row row d).2 = Raise e → (corner_row row d).1 = d.
Proof.
  unfold corner_row. rewrite !run_bind. unfold await.
  destruct (query_selector row "th strong") as [[header|]|e']; try done.
  rewrite !run_bind.
  destruct (inner_text header) as [corner_num|e']; try done.
  rewrite !run_bind.
  destruct (query_selector row "td") as [[order_cell|]|e']; try done.
  rewrite !run_bind.
  by destruct (inner_text order_cell) as [order_text|e'].
Qed.

Lemma lap_body_run (page : Page.t) (table : Element) (rows : list Element)
    (d : gmap pystr (list pystr)) :
  Page.query_selector page "table.Race_HaronTime" = Ok (Some table) →
  query_selector_all table "tbody tr" = Ok rows →
  lap_body page d = lap_rows rows d.
Proof.
  intros Hq Hr. unfold lap_body. rewrite run_bind, Hq. simpl.
  by rewrite run_bind, Hr.
Qed.

(** C2 as the specification words it fails: on a corner table whose second
  row raises, and on a lap table whose third row raises, the extractor
  raises inside its guarded region and still returns a mapping that is
  not empty. *)
Lemma corner_and_lap_partial_results_stay :
  ((corner_body corner_page_failing ∅).2 = Raise detached
   ∧ extract_corner_data corner_page_failing !! py "corner_1"
     = Some (py "(3,5)-1")
   ∧ extract_corner_data corner_page_failing ≠ ∅)
  ∧
  ((lap_body lap_page_failing ∅).2 = Raise detached
   ∧ extract_lap_times lap_page_failing !! py "distances"
     = Some [py "200m"; py "400m"]
   ∧ extract_lap_times lap_page_failing !! py "cumulative_times"
     = Some [py "12.5"; py "23.6"]
   ∧ extract_lap_times lap_page_failing ≠ ∅).
Proof.
  assert (C : extract_corner_data corner_page_failing !! py "corner_1"
              = Some (py "(3,5)-1")) by (by vm_compute).
  assert (L : extract_lap_times lap_page_failing !! py "distances"
              = Some [py "200m"; py "400m"]) by (by vm_compute).
  split; [split; [|split] | split; [|split; [|split]]].
  - by vm_compute.
  - exact C.
  - intros E. rewrite E, lookup_empty in C. discriminate C.
  - by vm_compute.
  - exact L.
  - by vm_compute.
  - intros E. rewrite E, lookup_empty in L. discriminate L.
Qed.

(** C2, as amended: when a row of the corner table raises, the corner
  extractor returns what the rows before it stored; when the third row
  of the lap table raises, the lap extractor returns the distances and
  the cumulative times stored before.  Nothing stored is taken back. *)
Theorem partial_results_kept :
  (∀ (page : Page.t) (pre post : list Element) (bad : Element) (e : exn),
      Page.query_selector_all page "table.Corner_Num tr"
        = Ok (pre ++ bad :: post) →
      (for_each pre corner_row ∅).2 = Ok () →
      (corner_row bad ∅).2 = Raise e →
      (corner_body page ∅).2 = Raise e ∧
      extract_corner_data page = guarded (for_each pre corner_row) ∅)
  ∧
  (∀ (page : Page.t) (table : Element) (rows : list Element)
     (ds cs : list pystr) (e : exn),
      Page.query_selector page "table.Race_HaronTime" = Ok (Some table) →
      query_selector_all table "tbody tr" = Ok rows →
      (3 ≤ length rows)%nat →
      row_texts rows 0 "th" = Ok ds →
      row_texts rows 1 "td" = Ok cs →
      row_texts rows 2 "td" = Raise e →
      (lap_body page ∅).2 = Raise e ∧
      extract_lap_times page
        = <[py "cumulative_times" := cs]> (<[py "distances" := ds]> ∅)).
Proof.
  split.
  - intros page pre post bad e Hq Hpre Hbad.
    unfold extract_corner_data, guarded, corner_body.
    rewrite run_bind, Hq. simpl. rewrite for_each_app.
    destruct (for_each pre corner_row ∅) as [d r] eqn:E.
    simpl in Hpre. subst r. cbn [for_each]. rewrite run_bind.
    rewrite (corner_row_outcome bad ∅ d) in Hbad.
    pose proof (corner_row_raise_state bad d e Hbad) as Hst.
    destruct (corner_row bad d) as [d' r']. simpl in *. by subst.
  - intros page table rows ds cs e Hq Hr Hlen Hds Hcs He.
    unfold extract_lap_times, guarded.
    rewrite (lap_body_run page table rows ∅ Hq Hr).
    unfold lap_rows.
    destruct rows as [|r0 [|r1 [|r2 rest]]]; simpl in Hlen; try lia.
    cbn [length Nat.leb]. rewrite run_bind. unfold await at 1. rewrite Hds.
    cbn iota beta.
    rewrite run_bind, run_bind. unfold await at 1. rewrite Hcs.
    cbn iota beta. rewrite run_bind. cbn [set_item].
    rewrite run_bind. unfold await. rewrite He. done.
Qed.

(** C3 as the specification words it fails: a lap table with its row 0
  only is read without an exception and gives no [distances] key. *)
Lemma lap_table_header_only_has_no_distances :
  ∃ (table : Element) (rows : list Element),
    Page.query_selector lap_page_header_only "table.Race_HaronTime"
      = Ok (Some table) ∧
    query_selector_all table "tbody tr" = Ok rows ∧
    length rows = 1%nat ∧
    (lap_body lap_page_header_only ∅).2 = Ok () ∧
    extract_lap_times lap_page_header_only !! py "distances" = None.
Proof. do 2 eexists. repeat split; by vm_compute. Qed.

Lemma lap_rows_short (rows : list Element) :
  (length rows < 2)%nat → (lap_rows rows ∅).1 = ∅.
Proof.
  intros Hlen. unfold lap_rows.
  destruct rows as [|r0 [|r1 rest]]; simpl in Hlen; try lia; [done|].
  cbn [length Nat.leb]. rewrite run_bind. unfold await.
  by destruct (row_texts [r0] 0 "th").
Qed.

Lemma lap_rows_two (r0 r1 : Element) :
  (lap_rows [r0; r1] ∅).2 = Ok () →
  ∃ ds cs, (lap_rows [r0; r1] ∅).1
           = <[py "cumulative_times" := cs]> (<[py "distances" := ds]> ∅).
Proof.
  unfold lap_rows. cbn [length Nat.leb]. rewrite run_bind. unfold await at 1.
  destruct (row_texts [r0; r1] 0 "th") as [ds|e]; [|done]. cbn iota beta.
  rewrite !run_bind. unfold await at 1.
  destruct (row_texts [r0; r1] 1 "td") as [cs|e]; [|done]. intros _.
  by exists ds, cs.
Qed.

Lemma lap_rows_three (r0 r1 r2 : Element) (rest : list Element) :
  (lap_rows (r0 :: r1 :: r2 :: rest) ∅).2 = Ok () →
  ∃ ds cs ts, (lap_rows (r0 :: r1 :: r2 :: rest) ∅).1
              = <[py "interval_times" := ts]>
                  (<[py "cumulative_times" := cs]> (<[py "distances" := ds]> ∅)).
Proof.
  unfold lap_rows. cbn [length Nat.leb]. rewrite run_bind. unfold await at 1.
  destruct (row_texts (r0 :: r1 :: r2 :: rest) 0 "th") as [ds|e]; [|done].
  cbn iota beta. rewrite !run_bind. unfold await at 1.
  destruct (row_texts (r0 :: r1 :: r2 :: rest) 1 "td") as [cs|e]; [|done].
  cbn iota beta. rewrite !run_bind. cbn [set_item]. rewrite !run_bind.
  unfold await.
  destruct (row_texts (r0 :: r1 :: r2 :: rest) 2 "td") as [ts|e]; [|done].
  intros _. by exists ds, cs, ts.
Qed.

(** A row that exists and can be read gives its texts. *)
Lemma row_texts_readable (rows : list Element) (i : nat) (sel : string)
    (row : Element) :
  rows !! i = Some row → row_readable sel row = true →
  ∃ texts, row_texts rows i sel = Ok texts.
Proof.
  intros Hi Hr. unfold row_texts, index. rewrite Hi. cbn [mbind outcome_bind].
  unfold row_readable in Hr.
  destruct (query_selector_all row sel ≫= _) as [texts|e]; [by eexists | done].
Qed.

(** C3, as amended: on a lap table with [n] rows whose rows 0, 1 and 2, as
  far as they exist, can be read, the extraction raises nothing,
  [distances] and [cumulative_times] are present exactly when [2 <= n],
  [interval_times] exactly when [3 <= n], and with fewer than two rows
  the mapping is empty. *)
Theorem lap_times_keys (page : Page.t) (table : Element) (rows : list Element) :
  Page.query_selector page "table.Race_HaronTime" = Ok (Some table) →
  query_selector_all table "tbody tr" = Ok rows →
  (∀ row, rows !! 0%nat = Some row → row_readable "th" row = true) →
  (∀ row, rows !! 1%nat = Some row → row_readable "td" row = true) →
  (∀ row, rows !! 2%nat = Some row → row_readable "td" row = true) →
  (lap_body page ∅).2 = Ok () ∧
  (is_Some (extract_lap_times page !! py "distances") ↔ (2 ≤ length rows)%nat) ∧
  (is_Some (extract_lap_times page !! py "cumulative_times")
     ↔ (2 ≤ length rows)%nat) ∧
  (is_Some (extract_lap_times page !! py "interval_times")
     ↔ (3 ≤ length rows)%nat) ∧
  ((length rows < 2)%nat → extract_lap_times page = ∅).
Proof.
  intros Hq Hr H0 H1 H2.
  assert (Hok : (lap_rows rows ∅).2 = Ok ()).
  { unfold lap_rows.
    destruct rows as [|r0 [|r1 [|r2 rest]]]; cbn [length Nat.leb]; [done|..].
    - destruct (row_texts_readable [r0] 0 "th" r0 eq_refl (H0 r0 eq_refl))
        as [ds Hds].
      rewrite run_bind. unfold await. by rewrite Hds.
    - destruct (row_texts_readable [r0; r1] 0 "th" r0 eq_refl (H0 r0 eq_refl))
        as [ds Hds].
      destruct (row_texts_readable [r0; r1] 1 "td" r1 eq_refl (H1 r1 eq_refl))
        as [cs Hcs].
      rewrite run_bind. unfold await at 1. rewrite Hds. cbn iota beta.
      rewrite !run_bind. unfold await. by rewrite Hcs.
    - destruct (row_texts_readable (r0 :: r1 :: r2 :: rest) 0 "th" r0 eq_refl
                  (H0 r0 eq_refl)) as [ds Hds].
      destruct (row_texts_readable (r0 :: r1 :: r2 :: rest) 1 "td" r1 eq_refl
                  (H1 r1 eq_refl)) as [cs Hcs].
      destruct (row_texts_readable (r0 :: r1 :: r2 :: rest) 2 "td" r2 eq_refl
                  (H2 r2 eq_refl)) as [ts Hts].
      rewrite run_bind. unfold await at 1. rewrite Hds. cbn iota beta.
      rewrite !run_bind. unfold await at 1. rewrite Hcs. cbn iota beta.
      rewrite !run_bind. cbn [set_item]. rewrite !run_bind.
      unfold await. by rewrite Hts. }
  split; [by rewrite (lap_body_run page table rows ∅ Hq Hr)|].
  unfold extract_lap_times, guarded.
  rewrite (lap_body_run page table rows ∅ Hq Hr).
  destruct (decide (length rows < 2)%nat) as [Hlt|Hge].
  - rewrite (lap_rows_short rows Hlt). rewrite !lookup_empty.
    repeat split; try lia; try done; intros [? ?]; discriminate.
  - destruct rows as [|r0 [|r1 [|r2 rest]]]; simpl in Hge; try lia.
    + destruct (lap_rows_two r0 r1 Hok) as (ds & cs & ->).
      rewrite lookup_insert_ne by (intros E; py_discriminate).
      rewrite !lookup_insert_eq.
      rewrite !lookup_insert_ne by (intros E; py_discriminate).
      rewrite lookup_empty. simpl.
      repeat split; try lia; try done; try (intros [? ?]; discriminate).
    + destruct (lap_rows_three r0 r1 r2 rest Hok) as (ds & cs & ts & ->).
      rewrite !(lookup_insert_ne _ (py "interval_times"))
        by (intros E; py_discriminate).
      rewrite (lookup_insert_ne _ (py "cumulative_times") (py "distances"))
        by (intros E; py_discriminate).
      rewrite !lookup_insert_eq. simpl.
      repeat split; try lia; done.
Qed.
End CornerAndLap.

(** ** Runs on the example pages *)
(** [partial_results_kept] on the two failing pages. *)
Lemma partial_results_kept_witness :
  ((corner_body corner_page_failing ∅).2 = Raise detached ∧
   extract_corner_data corner_page_failing
     = guarded (for_each [corner_row_of (py "1") (py "(3,5)-1")] corner_row) ∅)
  ∧
  ((lap_body lap_page_failing ∅).2 = Raise detached ∧
   extract_lap_times lap_page_failing
     = <[py "cumulative_times" := [py "12.5"; py "23.6"]]>
         (<[py "distances" := [py "200m"; py "400m"]]> ∅)).
Proof.
  destruct partial_results_kept as [C L]. split.
  - apply (C corner_page_failing [corner_row_of (py "1") (py "(3,5)-1")] []
             detached_element detached); reflexivity.
  - apply (L lap_page_failing
             (element (Ok [])
                [("tbody tr"%string,
                  [lap_row_of "th" [py "200m"; py "400m"];
                   lap_row_of "td" [py "12.5"; py "23.6"];
                   detached_element])])
             [lap_row_of "th" [py "200m"; py "400m"];
              lap_row_of "td" [py "12.5"; py "23.6"];
              detached_element]);
      reflexivity.
Defined.

(** [lap_times_keys] on a lap table with its three rows. *)
Lemma lap_times_keys_witness :
  (lap_body lap_page_full ∅).2 = Ok () ∧
  (is_Some (extract_lap_times lap_page_full !! py "distances") ↔ (2 ≤ 3)%nat) ∧
  (is_Some (extract_lap_times lap_page_full !! py "cumulative_times") ↔ (2 ≤ 3)%nat) ∧
  (is_Some (extract_lap_times lap_page_full !! py "interval_times") ↔ (3 ≤ 3)%nat) ∧
  ((3 < 2)%nat → extract_lap_times lap_page_full = ∅).
Proof.
  apply (lap_times_keys lap_page_full
           (element (Ok [])
              [("tbody tr"%string,
                [lap_row_of "th" [py "200m"; py "400m"];
                 lap_row_of "td" [py "12.5"; py "23.6"];
                 lap_row_of "td" [py "12.5"; py "11.1"]])])
           [lap_row_of "th" [py "200m"; py "400m"];
            lap_row_of "td" [py "12.5"; py "23.6"];
            lap_row_of "td" [py "12.5"; py "11.1"]]);
    try reflexivity; intros row [= <-]; reflexivity.
Defined.

(** [short_row_excluded] on a table with a header row and a horse. *)
Lemma short_row_excluded_witness :
  horse_row (py "jra") header_row = Ok None ∧
  extract_horses_data header_and_horse_page (py "jra")
    = Ok (horse_rows (py "jra") ([] ++ [blank_passage_row]) []) ∧
  ∀ h, h ∈ horse_rows (py "jra") ([] ++ header_row :: [blank_passage_row]) [] →
    ∃ r cs, r ∈ [] ++ [blank_passage_row] ∧
            horse_row (py "jra") r = Ok (Some h) ∧
            query_selector_all r "td" = Ok cs ∧
            (layout_minimum (py "jra") ≤ length cs)%nat.
Proof.
  apply (short_row_excluded header_and_horse_page (py "jra")
           "table.RaceTable01.RaceCommon_Table tbody tr"
           [] [blank_passage_row] header_row []); try reflexivity.
  vm_compute. lia.
Defined.

(** [track_condition_closed_set] on a page whose last condition is 良. *)
Lemma track_condition_closed_set_witness :
  py "良" ∈ track_conditions ∧
  ∃ items item text,
    Page.query_selector_all race_page ".RaceData01 span" = Ok items ∧
    item ∈ items ∧ inner_text item = Ok text ∧ strip text = py "良".
Proof.
  apply (@track_condition_closed_set ascii_runtime race_page (py "jra") (py "良")).
  vm_compute. reflexivity.
Defined.

(** [race_date_zero_padded] on a page whose title shows 2024年3月10日. *)
Lemma race_date_zero_padded_witness :
  (@race_info_body ascii_runtime race_page (py "jra") ∅).2 = Ok () ∧
  @extract_race_info ascii_runtime race_page (py "jra") !! py "race_date"
    = Some (py "2024/03/10").
Proof.
  destruct (@race_date_zero_padded ascii_runtime race_page (py "jra")) as [_ T].
  destruct (T (text_element (py "弥生賞 結果 | 2024年3月10日 中山11R"))
              (py "弥生賞 結果 | 2024年3月10日 中山11R")
              eq_refl eq_refl eq_refl eq_refl eq_refl eq_refl)
    as (Hok & _ & T2).
  split; [exact Hok|].
  apply (T2 (fun c Hc => Hc) (py "弥生賞 結果 | ") (py " 中山11R")).
  - vm_compute. reflexivity.
  - left. vm_compute. repeat constructor.
Defined.

(** [absent_table_record_still_written] on a page with its header, its
    corner table and its lap table and no results table, with a file
    system that takes the one output file only. *)
Lemma absent_table_record_still_written_witness :
  extract_horses_data no_table_page (detect_race_type result_url) = Ok [] ∧
  @scrape_race_data ascii_runtime (playwright_of no_table_page) result_url
    = Ok no_table_record ∧
  @main ascii_runtime terminal [py "scraper.py"; result_url]
    (playwright_of no_table_page)
    (output_only (py "output/race_data_202406020111.json"))
  = {| exit_code := 0;
       written := Some (py "output/race_data_202406020111.json",
                        no_table_record) |}.
Proof.
  exact (@absent_table_record_still_written ascii_runtime terminal
           (playwright_of no_table_page)
           (output_only (py "output/race_data_202406020111.json"))
           {| new_page := Ok no_table_page; close := Ok () |} no_table_page
           (py "scraper.py") result_url
           eq_refl eq_refl eq_refl eq_refl eq_refl eq_refl eq_refl eq_refl
           (fun _ => eq_refl) eq_refl).
Defined.

(** [last_matching_span_wins] on a page with two distances, two
    conditions and two classes. *)
Lemma last_matching_span_wins_witness :
  @extract_race_info ascii_runtime race_page (py "jra") !! py "distance"
    = last (List.filter is_distance
              (strip <$> [py " 芝2000m "; py "稍重"; py "芝1600m"; py "良"])) ∧
  @extract_race_info ascii_runtime race_page (py "jra") !! py "track_condition"
    = last (List.filter is_track_condition
              (strip <$> [py " 芝2000m "; py "稍重"; py "芝1600m"; py "良"])) ∧
  @extract_race_info ascii_runtime race_page (py "jra") !! py "race_class"
    = last (List.filter (@is_race_class ascii_runtime)
              (strip <$> [py "サラ系3歳"; py "オープン"])).
Proof.
  destruct (@last_matching_span_wins ascii_runtime race_page (py "jra")
              [text_element (py " 芝2000m "); text_element (py "稍重");
               text_element (py "芝1600m"); text_element (py "良")]
              eq_refl eq_refl) as (_ & _ & W).
  destruct (W [py " 芝2000m "; py "稍重"; py "芝1600m"; py "良"] eq_refl)
    as (D & T & C).
  split; [exact D|]. split; [exact T|].
  exact (C [text_element (py "サラ系3歳"); text_element (py "オープン")]
           [py "サラ系3歳"; py "オープン"] eq_refl eq_refl).
Defined.

(** C8 as the specification words it fails: a title with 2024年3月10日
    gives no race date when the query for the race number raises, and
    gives 1999/01/01 when an older date stands before it. *)
Lemma race_date_absent_or_of_earlier_date :
  (∃ (e : Element) (pre post : pystr),
      Page.query_selector race_number_failing_page "title" = Ok (Some e) ∧
      inner_text e = Ok (pre ++ py "2024年3月10日" ++ post) ∧
      @extract_race_info ascii_runtime race_number_failing_page (py "jra")
        !! py "race_date" = None)
  ∧
  (∃ (e : Element) (pre post : pystr),
      Page.query_selector earlier_date_page "title" = Ok (Some e) ∧
      inner_text e = Ok (pre ++ py "2024年3月10日" ++ post) ∧
      (@race_info_body ascii_runtime earlier_date_page (py "jra") ∅).2 = Ok () ∧
      @extract_race_info ascii_runtime earlier_date_page (py "jra")
        !! py "race_date" = Some (py "1999/01/01")).
Proof.
  split.
  - exists (text_element (py "弥生賞 結果 | 2024年3月10日 中山11R")),
      (py "弥生賞 結果 | "), (py " 中山11R").
    repeat split; by vm_compute.
  - exists (text_element (py "1999年1月1日 創刊 | 弥生賞 2024年3月10日 中山11R")),
      (py "1999年1月1日 創刊 | 弥生賞 "), (py " 中山11R").
    repeat split; by vm_compute.
Qed.

(** C10 as the specification words it fails: with a span that raises
    between two distances, the distance stored is the first one, not the
    last of the region, and no race class is stored; when the query for
    the race name raises, nothing is stored though two spans match each
    of distance and track condition. *)
Lemma later_span_not_read :
  (Page.query_selector_all span_gone_page ".RaceData01 span"
     = Ok [text_element (py "芝2000m"); detached_element;
           text_element (py "芝1600m")]
   ∧ is_distance (py "芝2000m") = true
   ∧ is_distance (py "芝1600m") = true
   ∧ @extract_race_info ascii_runtime span_gone_page (py "jra") !! py "distance"
     = Some (py "芝2000m")
   ∧ @extract_race_info ascii_runtime span_gone_page (py "jra") !! py "race_class"
     = None)
  ∧
  (Page.query_selector_all race_name_failing_page ".RaceData01 span"
     = Ok [text_element (py " 芝2000m "); text_element (py "稍重");
           text_element (py "芝1600m"); text_element (py "良")]
   ∧ inner_texts [text_element (py " 芝2000m "); text_element (py "稍重");
                  text_element (py "芝1600m"); text_element (py "良")]
     = Ok [py " 芝2000m "; py "稍重"; py "芝1600m"; py "良"]
   ∧ List.filter is_distance
       (strip <$> [py " 芝2000m "; py "稍重"; py "芝1600m"; py "良"])
     = [py "芝2000m"; py "芝1600m"]
   ∧ List.filter is_track_condition
       (strip <$> [py " 芝2000m "; py "稍重"; py "芝1600m"; py "良"])
     = [py "稍重"; py "良"]
   ∧ @extract_race_info ascii_runtime race_name_failing_page (py "jra") = ∅).
Proof. repeat split; by vm_compute. Qed.

Example race_page_info :
  @extract_race_info ascii_runtime race_page (py "jra") !! py "distance"
    = Some (py "芝1600m") ∧
  @extract_race_info ascii_runtime race_page (py "jra") !! py "track_condition"
    = Some (py "良") ∧
  @extract_race_info ascii_runtime race_page (py "jra") !! py "race_class"
    = Some (py "オープン") ∧
  @extract_race_info ascii_runtime race_page (py "jra") !! py "race_number"
    = Some (py "11") ∧
  @extract_race_info ascii_runtime race_page (py "jra") !! py "race_name"
    = Some (py "弥生賞").
Proof. by vm_compute. Qed.

(** * More properties of the code *)

(** ** The query string *)
Section QueryString.
Context `{PythonRuntime}.

Lemma parse_qs_fold (name : pystr) (pairs : list (pystr * pystr))
    (m : gmap pystr (list pystr)) :
  fold_left (λ parsed_result '(name, value),
               match parsed_result !! name with
               | Some vs => <[name := vs ++ [value]]> parsed_result
               | None => <[name := [value]]> parsed_result
               end) pairs m !! name =
  match values_of name pairs with
  | [] => m !! name
  | vs => Some (default [] (m !! name) ++ vs)
  end.
Proof.
  revert m. induction pairs as [|[n v] pairs IH]; intros m; [done|].
  cbn [fold_left]. rewrite IH. unfold values_of.
  rewrite filter_cons. cbn [fst]. destruct (decide (n = name)) as [->|Hne].
  - rewrite fmap_cons. cbn [snd].
    destruct (m !! name) as [vs|] eqn:Em; rewrite lookup_insert_eq; simpl;
      destruct (snd <$> filter (λ p, p.1 = name) pairs); simpl;
      by rewrite <- ?app_assoc.
  - destruct (m !! n) as [vs|]; by rewrite lookup_insert_ne.
Qed.

Lemma parse_qs_lookup (qs name : pystr) :
  urllib.parse_qs qs !! name =
  match values_of name (urllib.parse_qsl qs) with
  | [] => None
  | vs => Some vs
  end.
Proof.
  unfold urllib.parse_qs. rewrite parse_qs_fold, lookup_empty.
  by destruct (values_of name (urllib.parse_qsl qs)).
Qed.

(** X1: for a URL that parses, the race id is the first non-blank value
  that the query gives to [race_id], and the empty string when it gives
  none; later values of the same name are not looked at. *)
Theorem extract_race_id_first_value (url : pystr) (r : urllib.SplitResult) :
  urllib.urlparse url = Ok r →
  extract_race_id url =
  default empty_str
    (head (values_of (py "race_id") (urllib.parse_qsl (urllib.query r)))).
Proof.
  intros Hp. unfold extract_race_id. rewrite Hp. cbn [mbind outcome_bind].
  rewrite parse_qs_lookup.
  by destruct (values_of (py "race_id") (urllib.parse_qsl (urllib.query r))).
Qed.
End QueryString.

(** [extract_race_id_first_value] on an example. *)
Lemma extract_race_id_first_value_witness :
  @extract_race_id ascii_runtime two_ids_url
  = default empty_str
      (head (values_of (py "race_id")
               (@urllib.parse_qsl ascii_runtime (urllib.query two_ids_split)))).
Proof.
  assert (Hp : @urllib.urlparse ascii_runtime two_ids_url = Ok two_ids_split)
    by (vm_compute; reflexivity).
  exact (@extract_race_id_first_value ascii_runtime two_ids_url two_ids_split Hp).
Defined.

Example extract_race_id_two_ids :
  @extract_race_id ascii_runtime two_ids_url = py "202406020111".
Proof. vm_compute. reflexivity. Qed.

(** ** The race information *)
(** From a state where [P] holds, code that keeps [P] and then goes on
    ends, returning or raising, in a state where [Q] holds. *)
Lemma bind_post {S A B : Type} (P Q : S → Prop) (m : M S A) (f : A → M S B) :
  preserves P m →
  (∀ s : S, P s → Q s) →
  (∀ (a : A) (s : S), P s → Q (f a s).1) →
  ∀ s : S, P s → Q ((m ≫= f) s).1.
Proof.
  intros Hm HPQ Hf s Hs. rewrite run_bind. specialize (Hm s Hs).
  destruct (m s) as [s1 [a|e]]; simpl in *; [by apply Hf | by apply HPQ].
Qed.

Lemma keys_within_set_item {V : Type} (keys : list pystr) (k : pystr) (v : V) :
  k ∈ keys → preserves (keys_within keys) (set_item k v).
Proof.
  intros Hk d Hd k' Hk'. simpl in Hk'.
  destruct (decide (k = k')) as [<-|Hne]; [done|].
  rewrite lookup_insert_ne in Hk' by done. by apply Hd.
Qed.

(** Code that only sets keys of [keys]. *)
Ltac keys_step :=
  repeat first
    [ apply preserves_ret | apply preserves_await | apply preserves_get_item
    | apply keys_within_set_item; apply (bool_decide_unpack _); vm_compute; exact I
    | apply preserves_fmap
    | apply preserves_bind; [|intros ?; cbv beta]
    | apply preserves_for_each; intros ? _; cbv beta
    | match goal with
      | |- preserves _ (match ?x with _ => _ end) => destruct x
      end ].

Section RaceInfoMore.
Context `{PythonRuntime}.

(** X2: the race type has no effect on the race information: both layouts
  read the race name from the same selector. *)
Theorem extract_race_info_ignores_race_type (page : Page.t) (rt rt' : pystr) :
  extract_race_info page rt = extract_race_info page rt'.
Proof.
  unfold extract_race_info, race_info_body.
  assert (E : race_name_step page rt = race_name_step page rt').
  { unfold race_name_step.
    by destruct (bool_decide (rt = py "nar")), (bool_decide (rt' = py "nar")). }
  by rewrite E.
Qed.

(** X3: the race information has no key other than the seven that the
  extractor sets. *)
Theorem race_info_keys_only (page : Page.t) (rt k : pystr) :
  is_Some (extract_race_info page rt !! k) → k ∈ race_info_keys.
Proof.
  revert k. change (keys_within race_info_keys (extract_race_info page rt)).
  unfold extract_race_info, guarded.
  assert (P0 : keys_within race_info_keys (∅ : gmap pystr pystr)).
  { intros k [v Hv]. by rewrite lookup_empty in Hv. }
  revert P0. generalize (∅ : gmap pystr pystr).
  unfold race_info_body, race_name_step, race_data01_step, race_data01_item,
    race_data02_step, race_data02_item, race_number_step, race_date_step,
    page_title_step.
  cbv zeta. keys_step.
Qed.

Lemma digit_run_decimal (s : pystr) :
  forallb str_isdecimal (re.digit_run s) = true.
Proof.
  induction s as [|a s IH]; [done|]. simpl.
  destruct (str_isdecimal a) eqn:E; [|done]. simpl. by rewrite E.
Qed.

Lemma startswith_digit_run (s : pystr) : startswith (re.digit_run s) s = true.
Proof.
  induction s as [|a s IH]; [done|]. simpl.
  destruct (str_isdecimal a); [|done]. simpl. by rewrite N.eqb_refl.
Qed.

Lemma contains_of_startswith (p s : pystr) :
  startswith p s = true → contains p s = true.
Proof. intros Hp. destruct s; simpl; by rewrite Hp. Qed.

Lemma contains_cons (p : pystr) (a : N) (s : pystr) :
  contains p s = true → contains p (a :: s) = true.
Proof. intros Hp. cbn [contains]. rewrite Hp. apply orb_true_r. Qed.

Lemma search_number_digits (s g : pystr) :
  re.search_number s = Some g →
  g ≠ [] ∧ forallb str_isdecimal g = true ∧ contains g s = true.
Proof.
  revert g. induction s as [|a s IH]; intros g; [done|].
  change (re.search_number (a :: s))
    with (if str_isdecimal a then Some (re.digit_run (a :: s))
          else re.search_number s).
  destruct (str_isdecimal a) eqn:E.
  - intros [= <-]. split; [|split].
    + simpl. by rewrite E.
    + apply (digit_run_decimal (a :: s)).
    + apply contains_of_startswith, (startswith_digit_run (a :: s)).
  - intros Hs. destruct (IH g Hs) as (Hn & Hd & Hc).
    split; [done|]. split; [done|]. by apply contains_cons.
Qed.

(** X4: a race number in the race information is a non-empty run of
  decimal digits that occurs in the stripped text of the [.RaceNum]
  element. *)
Theorem race_number_is_digits (page : Page.t) (rt v : pystr) :
  extract_race_info page rt !! py "race_number" = Some v →
  v ≠ [] ∧ forallb str_isdecimal v = true ∧
  ∃ (e : Element) (text : pystr),
    Page.query_selector page ".RaceNum" = Ok (Some e) ∧
    inner_text e = Ok text ∧ contains v (strip text) = true.
Proof.
  revert v.
  set (P := λ d : gmap pystr pystr,
         ∀ v, d !! py "race_number" = Some v →
           v ≠ [] ∧ forallb str_isdecimal v = true ∧
           ∃ (e : Element) (text : pystr),
             Page.query_selector page ".RaceNum" = Ok (Some e) ∧
             inner_text e = Ok text ∧ contains v (strip text) = true).
  change (P (extract_race_info page rt)).
  assert (K : ∀ (A : Type) (m : M (gmap pystr pystr) A),
             keeps_key (py "race_number") m → preserves P m).
  { intros A m. apply keeps_key_preserves_by. intros d d' E Hd v Hv.
    apply Hd. by rewrite <- E. }
  unfold extract_race_info, guarded, race_info_body.
  assert (P0 : P ∅) by (intros v Hv; by rewrite lookup_empty in Hv).
  revert P0. generalize (∅ : gmap pystr pystr).
  apply preserves_bind.
  { apply K, race_name_step_keeps. intros E. py_discriminate. }
  intros _. apply preserves_bind.
  { apply K, race_data01_step_keeps; intros E; py_discriminate. }
  intros _. apply preserves_bind.
  { apply K, race_data02_step_keeps. intros E. py_discriminate. }
  intros _. apply preserves_bind.
  { unfold race_number_step. apply preserves_await_bind.
    intros [e|] Hq; [|apply preserves_ret].
    intros d Hd. rewrite run_bind, run_fmap. unfold await.
    destruct (inner_text e) as [text|err] eqn:Ht; [|done]. simpl.
    destruct (re.search_number (strip text)) as [g|] eqn:Hs; [|done].
    intros v Hv. simpl in Hv. rewrite lookup_insert_eq in Hv. injection Hv as <-.
    destruct (search_number_digits _ _ Hs) as (Hn & Hd' & Hc).
    split; [done|]. split; [done|]. by exists e, text. }
  intros _. apply preserves_bind.
  { apply K, race_date_step_keeps. intros E. py_discriminate. }
  intros _. apply K, page_title_step_keeps. intros E. py_discriminate.
Qed.
Lemma page_title_step_post (page : Page.t) (d : gmap pystr pystr) (t : pystr) :
  d !! py "page_title" = None →
  (page_title_step page d).1 !! py "page_title" = Some t →
  truthy (default [] ((page_title_step page d).1 !! py "race_name")) = false ∧
  ∃ (e : Element) (title : pystr),
    Page.query_selector page "title" = Ok (Some e) ∧
    inner_text e = Ok title ∧ t = strip title.
Proof.
  intros Hd. unfold page_title_step. rewrite run_bind. cbn [get_item].
  destruct (negb (truthy (default [] (d !! py "race_name")))) eqn:Hn;
    [|simpl; by rewrite Hd].
  rewrite run_bind. unfold await.
  destruct (Page.query_selector page "title") as [[e|]|err] eqn:Hq;
    [|simpl; by rewrite Hd..].
  rewrite run_bind.
  destruct (inner_text e) as [title|err] eqn:Ht; [|simpl; by rewrite Hd].
  simpl. rewrite lookup_insert_eq. intros [= <-].
  rewrite lookup_insert_ne by (intros E; py_discriminate).
  split; [by apply negb_true_iff in Hn | by exists e, title].
Qed.

(** X5: [page_title] is set only when there is no race name, or an empty
  one, and then it is the stripped text of the title element. *)
Theorem page_title_is_fallback (page : Page.t) (rt t : pystr) :
  extract_race_info page rt !! py "page_title" = Some t →
  truthy (default [] (extract_race_info page rt !! py "race_name")) = false ∧
  ∃ (e : Element) (title : pystr),
    Page.query_selector page "title" = Ok (Some e) ∧
    inner_text e = Ok title ∧ t = strip title.
Proof.
  revert t.
  set (P := λ d : gmap pystr pystr, d !! py "page_title" = None).
  set (Q := λ d : gmap pystr pystr,
         ∀ t, d !! py "page_title" = Some t →
           truthy (default [] (d !! py "race_name")) = false ∧
           ∃ (e : Element) (title : pystr),
             Page.query_selector page "title" = Ok (Some e) ∧
             inner_text e = Ok title ∧ t = strip title).
  change (Q (extract_race_info page rt)).
  assert (PQ : ∀ d, P d → Q d).
  { intros d Hd t Ht. unfold P in Hd. by rewrite Hd in Ht. }
  assert (K : ∀ (A : Type) (m : M (gmap pystr pystr) A),
             keeps_key (py "page_title") m → preserves P m).
  { intros A m Hk d Hd. unfold P. by rewrite Hk. }
  unfold extract_race_info, guarded, race_info_body.
  assert (P0 : P ∅) by apply lookup_empty.
  revert P0. generalize (∅ : gmap pystr pystr).
  apply (bind_post P Q); [|done|intros _].
  { apply K, race_name_step_keeps. intros E. py_discriminate. }
  apply (bind_post P Q); [|done|intros _].
  { apply K, race_data01_step_keeps; intros E; py_discriminate. }
  apply (bind_post P Q); [|done|intros _].
  { apply K, race_data02_step_keeps. intros E. py_discriminate. }
  apply (bind_post P Q); [|done|intros _].
  { apply K, race_number_step_keeps. intros E. py_discriminate. }
  apply (bind_post P Q); [|done|intros _].
  { apply K, race_date_step_keeps. intros E. py_discriminate. }
  intros d Hd t. by apply page_title_step_post.
Qed.

End RaceInfoMore.

(** [race_number_is_digits] on an example. *)
Lemma race_number_is_digits_witness :
  py "11" ≠ [] ∧ forallb (@str_isdecimal ascii_runtime) (py "11") = true ∧
  ∃ (e : Element) (text : pystr),
    Page.query_selector race_page ".RaceNum" = Ok (Some e) ∧
    inner_text e = Ok text ∧ contains (py "11") (strip text) = true.
Proof.
  assert (Hv : @extract_race_info ascii_runtime race_page (py "jra")
                 !! py "race_number" = Some (py "11"))
    by (vm_compute; reflexivity).
  exact (@race_number_is_digits ascii_runtime race_page (py "jra") (py "11") Hv).
Defined.

(** [race_info_keys_only] on an example. *)
Lemma race_info_keys_only_witness : py "race_date" ∈ race_info_keys.
Proof.
  apply (@race_info_keys_only ascii_runtime race_page (py "jra") (py "race_date")).
  exists (py "2024/03/10"). vm_compute. reflexivity.
Defined.

(** [page_title_is_fallback] on an example. *)
Lemma page_title_is_fallback_witness :
  truthy (default [] (@extract_race_info ascii_runtime title_only_page (py "jra")
                        !! py "race_name")) = false ∧
  ∃ (e : Element) (title : pystr),
    Page.query_selector title_only_page "title" = Ok (Some e) ∧
    inner_text e = Ok title ∧ py "東京競馬 | netkeiba" = strip title.
Proof.
  assert (Hv : @extract_race_info ascii_runtime title_only_page (py "jra")
                 !! py "page_title" = Some (py "東京競馬 | netkeiba"))
    by (vm_compute; reflexivity).
  exact (@page_title_is_fallback ascii_runtime title_only_page (py "jra")
           (py "東京競馬 | netkeiba") Hv).
Defined.


Example race_number_failing_page_keeps_earlier_fields :
  @extract_race_info ascii_runtime race_number_failing_page (py "jra")
    !! py "race_name" = Some (py "弥生賞") ∧
  @extract_race_info ascii_runtime race_number_failing_page (py "jra")
    !! py "race_class" = Some (py "オープン").
Proof. by vm_compute. Qed.

(** ** The horses *)
(** *** Stripping a string *)

Lemma lstrip_by_fixed (f : N → bool) (c : N) (s : pystr) :
  f c = false → lstrip_by f (c :: s) = c :: s.
Proof. intros Hc. simpl. by rewrite Hc. Qed.

Lemma lstrip_by_head (f : N → bool) (s : pystr) :
  lstrip_by f s = [] ∨ ∃ c r, lstrip_by f s = c :: r ∧ f c = false.
Proof.
  induction s as [|a s IH]; [by left|]. simpl.
  destruct (f a) eqn:E; [done|]. right. by exists a, s.
Qed.

Lemma lstrip_by_idemp (f : N → bool) (s : pystr) :
  lstrip_by f (lstrip_by f s) = lstrip_by f s.
Proof.
  destruct (lstrip_by_head f s) as [->|(c & r & -> & Hc)]; [done|].
  by apply lstrip_by_fixed.
Qed.

Lemma rstrip_by_idemp (f : N → bool) (s : pystr) :
  rstrip_by f (rstrip_by f s) = rstrip_by f s.
Proof. unfold rstrip_by. by rewrite rev_involutive, lstrip_by_idemp. Qed.

Lemma rstrip_by_cons (f : N → bool) (c : N) (s : pystr) :
  f c = false → rstrip_by f (c :: s) = c :: rstrip_by f s.
Proof. intros Hc. exact (rstrip_by_app f [] s c Hc). Qed.

Lemma strip_idemp (s : pystr) : strip (strip s) = strip s.
Proof.
  unfold strip.
  destruct (lstrip_by_head isspace s) as [->|(c & r & -> & Hc)]; [done|].
  rewrite (rstrip_by_cons isspace c r Hc).
  rewrite (lstrip_by_fixed isspace c _ Hc).
  rewrite (rstrip_by_cons isspace c _ Hc).
  by rewrite rstrip_by_idemp.
Qed.

Lemma ok_some_inj {A : Type} (a b : A) : Ok (Some a) = Ok (Some b) → a = b.
Proof. by intros [= ->]. Qed.

Section HorsesMore.

Lemma horse_row_shape (rt : pystr) (row : Element) (h : gmap pystr pystr) :
  horse_row rt row = Ok (Some h) →
  ∃ rank frame horse_num horse_name time last_3f corner_passage : pystr,
    h = (if truthy corner_passage
         then <[py "corner_passage" := strip corner_passage]>
                (horse_fields rank frame horse_num horse_name time last_3f)
         else horse_fields rank frame horse_num horse_name time last_3f) ∧
    (rt = py "nar" → corner_passage = []).
Proof.
  unfold horse_row. intros Hh.
  destruct (query_selector_all row "td") as [cells|]; [|done].
  rewrite bind_Ok in Hh. unfold row_layout in Hh.
  destruct (bool_decide (rt = py "nar")) eqn:Ert.
  - destruct (length cells <? 12)%nat; [done|].
    repeat match type of Hh with
           | (Ok _ ≫= _) = _ => rewrite bind_Ok in Hh
           | (?o ≫= _) = _ =>
               destruct o; [rewrite bind_Ok in Hh | discriminate Hh]
           end.
    apply ok_some_inj in Hh. subst h.
    do 6 eexists. exists empty_str. split; [reflexivity|done].
  - destruct (length cells <? 13)%nat; [done|].
    repeat match type of Hh with
           | (Ok _ ≫= _) = _ => rewrite bind_Ok in Hh
           | (?o ≫= _) = _ =>
               destruct o; [rewrite bind_Ok in Hh | discriminate Hh]
           end.
    apply ok_some_inj in Hh. subst h.
    do 7 eexists. split; [reflexivity|].
    intros ->. by apply bool_decide_eq_false in Ert.
Qed.
Lemma horse_fields_lookup (rank frame horse_num horse_name time last_3f : pystr)
    (k v : pystr) :
  horse_fields rank frame horse_num horse_name time last_3f !! k = Some v →
  k ∈ horse_keys ∧ strip v = v.
Proof.
  unfold horse_fields. intros Hk.
  repeat (apply lookup_insert_Some in Hk as [[<- <-]|[_ Hk]];
          [split; [apply (bool_decide_unpack _); by vm_compute
                  | apply strip_idemp] |]).
  by rewrite lookup_empty in Hk.
Qed.

Lemma horse_fields_present (rank frame horse_num horse_name time last_3f : pystr)
    (k : pystr) :
  k ∈ [py "rank"; py "frame"; py "horse_number"; py "horse_name"; py "time";
       py "last_3f"] →
  is_Some (horse_fields rank frame horse_num horse_name time last_3f !! k).
Proof.
  intros Hk. unfold horse_fields.
  repeat (apply elem_of_cons in Hk as [->|Hk];
          [rewrite ?lookup_insert_ne by (intros E; py_discriminate);
           rewrite lookup_insert_eq; by eexists |]).
  by apply elem_of_nil in Hk.
Qed.

Lemma extract_horses_elem (page : Page.t) (rt : pystr)
    (hs : list (gmap pystr pystr)) (h : gmap pystr pystr) :
  extract_horses_data page rt = Ok hs → h ∈ hs →
  ∃ row : Element, horse_row rt row = Ok (Some h).
Proof.
  unfold extract_horses_data.
  destruct (wait_for_table page rt) as [sel|].
  - destruct (Page.query_selector_all page sel) as [rows|e]; [|done].
    rewrite bind_Ok. intros [= <-] Hh.
    apply horse_rows_elem in Hh as [Hh|(row & _ & Hrow)];
      [by apply elem_of_nil in Hh | by exists row].
  - intros [= <-] Hh. by apply elem_of_nil in Hh.
Qed.

(** X7: every horse that the results-table extractor returns has the six
  keys rank, frame, horse_number, horse_name, time and last_3f, no key
  outside those and [corner_passage], and only stripped values. *)
Theorem horses_schema (page : Page.t) (rt : pystr)
    (hs : list (gmap pystr pystr)) (h : gmap pystr pystr) :
  extract_horses_data page rt = Ok hs → h ∈ hs →
  (∀ k : pystr,
      k ∈ [py "rank"; py "frame"; py "horse_number"; py "horse_name";
           py "time"; py "last_3f"] → is_Some (h !! k)) ∧
  (∀ k v : pystr, h !! k = Some v → k ∈ horse_keys ∧ strip v = v).
Proof.
  intros He Hh. destruct (extract_horses_elem page rt hs h He Hh) as [row Hrow].
  destruct (horse_row_shape rt row h Hrow)
    as (rank & frame & num & name & time & l3f & cp & -> & _).
  split.
  - intros k Hk.
    pose proof (horse_fields_present rank frame num name time l3f k Hk) as Hp.
    destruct (truthy cp); [|done].
    rewrite lookup_insert_ne; [done|]. intros <-.
    revert Hk. apply (bool_decide_eq_false_1 _). by vm_compute.
  - intros k v Hk. destruct (truthy cp); [|by eapply horse_fields_lookup].
    apply lookup_insert_Some in Hk as [[<- <-]|[_ Hk]];
      [|by eapply horse_fields_lookup].
    split; [apply (bool_decide_unpack _); by vm_compute | apply strip_idemp].
Qed.

(** X8: with the local layout no horse has the key [corner_passage]. *)
Theorem local_layout_has_no_corner_passage (page : Page.t)
    (hs : list (gmap pystr pystr)) (h : gmap pystr pystr) :
  extract_horses_data page (py "nar") = Ok hs → h ∈ hs →
  h !! py "corner_passage" = None.
Proof.
  intros He Hh.
  destruct (extract_horses_elem page (py "nar") hs h He Hh) as [row Hrow].
  destruct (horse_row_shape (py "nar") row h Hrow)
    as (rank & frame & num & name & time & l3f & cp & -> & Hcp).
  rewrite (Hcp eq_refl). cbn [truthy]. unfold horse_fields.
  rewrite !lookup_insert_ne by (intros E; py_discriminate).
  apply lookup_empty.
Qed.

Lemma horse_row_other_type (rt : pystr) (row : Element) :
  rt ≠ py "nar" → horse_row rt row = horse_row (py "jra") row.
Proof.
  intros Hrt. unfold horse_row, row_layout.
  rewrite (bool_decide_eq_false_2 (rt = py "nar") Hrt).
  by rewrite (bool_decide_eq_false_2 (py "jra" = py "nar"))
    by (intros E; py_discriminate).
Qed.

Lemma horse_rows_other_type (rt : pystr) (rows : list Element)
    (acc : list (gmap pystr pystr)) :
  rt ≠ py "nar" → horse_rows rt rows acc = horse_rows (py "jra") rows acc.
Proof.
  intros Hrt. revert acc. induction rows as [|row rows IH]; intros acc; [done|].
  cbn [horse_rows]. by rewrite IH, horse_row_other_type.
Qed.

(** X9: every race type other than ["nar"], ["unknown"] too, is read as
  the central layout. *)
Theorem other_race_types_as_central (page : Page.t) (rt : pystr) :
  rt ≠ py "nar" →
  extract_horses_data page rt = extract_horses_data page (py "jra").
Proof.
  intros Hrt.
  assert (Hw : wait_for_table page rt = wait_for_table page (py "jra")).
  { unfold wait_for_table, table_selector, fallback_table_selector.
    rewrite (bool_decide_eq_false_2 (rt = py "nar") Hrt).
    by rewrite (bool_decide_eq_false_2 (py "jra" = py "nar"))
      by (intros E; py_discriminate). }
  unfold extract_horses_data. rewrite Hw.
  destruct (wait_for_table page (py "jra")) as [sel|]; [|done].
  destruct (Page.query_selector_all page sel) as [rows|e]; [|done].
  rewrite !bind_Ok. by rewrite horse_rows_other_type.
Qed.

Lemma horse_rows_length (rt : pystr) (rows : list Element)
    (acc : list (gmap pystr pystr)) :
  (length (horse_rows rt rows acc) ≤ length acc + length rows)%nat.
Proof.
  revert acc. induction rows as [|row rows IH]; intros acc; simpl; [lia|].
  etrans; [apply IH|].
  destruct (horse_row rt row) as [[h|]|e]; rewrite ?length_app; simpl; lia.
Qed.

(** X10: a row of the results table that raises is left out and the rows
  after it are still read: the horses are those of the table without
  that row, at most one for each other row. *)
Theorem failing_row_is_skipped (page : Page.t) (rt : pystr) (sel : string)
    (pre post : list Element) (bad : Element) (e : exn) :
  wait_for_table page rt = Some sel →
  Page.query_selector_all page sel = Ok (pre ++ bad :: post) →
  horse_row rt bad = Raise e →
  extract_horses_data page rt = Ok (horse_rows rt (pre ++ post) []) ∧
  (length (horse_rows rt (pre ++ post) []) ≤ length pre + length post)%nat.
Proof.
  intros Hw Hq Hbad. split.
  - unfold extract_horses_data. rewrite Hw, Hq, bind_Ok.
    rewrite !horse_rows_app. cbn [horse_rows]. by rewrite Hbad.
  - pose proof (horse_rows_length rt (pre ++ post) []) as Hl.
    rewrite length_app in Hl. simpl in Hl. lia.
Qed.
End HorsesMore.

(** [horses_schema] on an example. *)
Lemma horses_schema_witness :
  (∀ k : pystr,
      k ∈ [py "rank"; py "frame"; py "horse_number"; py "horse_name";
           py "time"; py "last_3f"] →
      is_Some (horse_fields (py "2") (py "4") (py "4") (py " Haiseiko ")
                 (py "1:35.2") (py "38.1") !! k)) ∧
  (∀ k v : pystr,
      horse_fields (py "2") (py "4") (py "4") (py " Haiseiko ")
        (py "1:35.2") (py "38.1") !! k = Some v →
      k ∈ horse_keys ∧ strip v = v).
Proof.
  assert (He : extract_horses_data local_page (py "nar")
               = Ok [horse_fields (py "2") (py "4") (py "4") (py " Haiseiko ")
                       (py "1:35.2") (py "38.1")])
    by (vm_compute; reflexivity).
  apply (horses_schema local_page (py "nar") _ _ He). by left.
Defined.

(** [local_layout_has_no_corner_passage] on an example. *)
Lemma local_layout_has_no_corner_passage_witness :
  horse_fields (py "2") (py "4") (py "4") (py " Haiseiko ")
    (py "1:35.2") (py "38.1") !! py "corner_passage" = None.
Proof.
  assert (He : extract_horses_data local_page (py "nar")
               = Ok [horse_fields (py "2") (py "4") (py "4") (py " Haiseiko ")
                       (py "1:35.2") (py "38.1")])
    by (vm_compute; reflexivity).
  apply (local_layout_has_no_corner_passage local_page _ _ He). by left.
Defined.

(** [other_race_types_as_central] on an example. *)
Lemma other_race_types_as_central_witness :
  extract_horses_data blank_passage_page (py "unknown")
  = extract_horses_data blank_passage_page (py "jra").
Proof.
  apply (other_race_types_as_central blank_passage_page (py "unknown")).
  intros E. vm_compute in E. discriminate E.
Defined.

(** [failing_row_is_skipped] on an example. *)
Lemma failing_row_is_skipped_witness :
  extract_horses_data detached_row_page (py "jra")
  = Ok (horse_rows (py "jra") ([] ++ [blank_passage_row]) []) ∧
  (length (horse_rows (py "jra") ([] ++ [blank_passage_row]) [])
   ≤ length ([] : list Element) + length [blank_passage_row])%nat.
Proof.
  apply (failing_row_is_skipped detached_row_page (py "jra")
           "table.RaceTable01.RaceCommon_Table tbody tr"
           [] [blank_passage_row] detached_element detached); reflexivity.
Defined.

(** ** The corner table *)
Section CornerAndLapMore.

Lemma corner_row_entry (page : Page.t) (rows : list Element) (row : Element) :
  Page.query_selector_all page "table.Corner_Num tr" = Ok rows →
  row ∈ rows →
  preserves (corner_entries_from_rows page) (corner_row row).
Proof.
  intros Hq Hrow d Hd. unfold corner_row. rewrite run_bind. unfold await.
  destruct (query_selector row "th strong") as [[header|]|e] eqn:Hh; try done.
  rewrite run_bind.
  destruct (inner_text header) as [label|e] eqn:Hl; try done.
  rewrite run_bind.
  destruct (query_selector row "td") as [[cell|]|e] eqn:Hc; try done.
  rewrite run_bind.
  destruct (inner_text cell) as [order|e] eqn:Ho; try done.
  intros k v Hk. simpl in Hk.
  apply lookup_insert_Some in Hk as [[<- <-]|[_ Hk]]; [|by apply Hd].
  by exists rows, row, header, label, cell.
Qed.

(** X11: every entry of the corner mapping has a key [corner_] followed by
  the label of a row of the corner table, and as value the text of the
  cell of that row. *)
Theorem corner_entries_come_from_rows (page : Page.t) (k v : pystr) :
  extract_corner_data page !! k = Some v →
  ∃ (rows : list Element) (row header : Element) (label : pystr) (cell : Element),
    Page.query_selector_all page "table.Corner_Num tr" = Ok rows ∧
    row ∈ rows ∧
    query_selector row "th strong" = Ok (Some header) ∧
    inner_text header = Ok label ∧
    k = py "corner_" ++ label ∧
    query_selector row "td" = Ok (Some cell) ∧
    inner_text cell = Ok v.
Proof.
  revert k v. change (corner_entries_from_rows page (extract_corner_data page)).
  unfold extract_corner_data, guarded, corner_body.
  assert (P0 : corner_entries_from_rows page ∅).
  { intros k v Hk. by rewrite lookup_empty in Hk. }
  revert P0. generalize (∅ : gmap pystr pystr).
  apply preserves_await_bind. intros rows Hq.
  apply preserves_for_each. intros row Hrow.
  by apply (corner_row_entry page rows row).
Qed.
Lemma corner_row_run (row : Element) (d : gmap pystr pystr) :
  corner_row row d =
  match corner_entry row with
  | Ok (Some p) => (<[p.1 := p.2]> d, Ok ())
  | Ok None => (d, Ok ())
  | Raise e => (d, Raise e)
  end.
Proof.
  unfold corner_row, corner_entry. rewrite run_bind. unfold await.
  destruct (query_selector row "th strong") as [[header|]|e]; try done.
  rewrite run_bind, bind_Ok.
  destruct (inner_text header) as [label|e]; try done.
  rewrite run_bind, bind_Ok.
  destruct (query_selector row "td") as [[cell|]|e]; try done.
  rewrite run_bind, bind_Ok.
  by destruct (inner_text cell) as [order|e].
Qed.

Lemma for_each_corner_rows (rows : list Element) (entries : list (pystr * pystr))
    (d : gmap pystr pystr) :
  corner_entries rows = Ok entries →
  for_each rows corner_row d = (foldl (λ d p, <[p.1 := p.2]> d) d entries, Ok ()).
Proof.
  revert entries d. induction rows as [|row rows IH]; intros entries d.
  - by intros [= <-].
  - cbn [corner_entries for_each]. rewrite run_bind, corner_row_run.
    destruct (corner_entry row) as [entry|e]; [|done]. rewrite bind_Ok.
    destruct (corner_entries rows) as [rest|e]; [|done]. rewrite bind_Ok.
    intros [= <-]. destruct entry as [p|]; by rewrite (IH rest).
Qed.

Lemma lookup_foldl_entries (entries : list (pystr * pystr))
    (d : gmap pystr pystr) (k : pystr) :
  foldl (λ d p, <[p.1 := p.2]> d) d entries !! k =
  match last (List.filter (λ p, bool_decide (p.1 = k)) entries) with
  | Some p => Some p.2
  | None => d !! k
  end.
Proof.
  revert d. induction entries as [|p entries IH]; intros d; [done|].
  rewrite last_filter_cons. cbn [foldl]. rewrite IH.
  destruct (last (List.filter (λ p, bool_decide (p.1 = k)) entries)); [done|].
  destruct (bool_decide (p.1 = k)) eqn:E.
  - apply bool_decide_eq_true in E as <-. by rewrite lookup_insert_eq.
  - apply bool_decide_eq_false in E. by rewrite lookup_insert_ne.
Qed.

(** X12: when every row of the corner table is read without an exception,
  the value of a key is the passing order of the last row with that
  label; a row without a label or without a cell gives nothing. *)
Theorem corner_last_row_wins (page : Page.t) (rows : list Element)
    (entries : list (pystr * pystr)) (k : pystr) :
  Page.query_selector_all page "table.Corner_Num tr" = Ok rows →
  corner_entries rows = Ok entries →
  extract_corner_data page !! k =
  snd <$> last (List.filter (λ p, bool_decide (p.1 = k)) entries).
Proof.
  intros Hq He. unfold extract_corner_data, guarded, corner_body.
  rewrite run_bind. unfold await. rewrite Hq.
  rewrite (for_each_corner_rows rows entries ∅ He). cbn [fst].
  rewrite lookup_foldl_entries, lookup_empty.
  by destruct (last _).
Qed.
End CornerAndLapMore.

(** [corner_entries_come_from_rows] on an example. *)
Lemma corner_entries_come_from_rows_witness :
  ∃ (rows : list Element) (row header : Element) (label : pystr) (cell : Element),
    Page.query_selector_all corner_page_twice "table.Corner_Num tr" = Ok rows ∧
    row ∈ rows ∧
    query_selector row "th strong" = Ok (Some header) ∧
    inner_text header = Ok label ∧
    py "corner_1" = py "corner_" ++ label ∧
    query_selector row "td" = Ok (Some cell) ∧
    inner_text cell = Ok (py "5,3,1").
Proof.
  apply (corner_entries_come_from_rows corner_page_twice (py "corner_1") (py "5,3,1")).
  vm_compute. reflexivity.
Defined.

(** [corner_last_row_wins] on an example. *)
Lemma corner_last_row_wins_witness :
  extract_corner_data corner_page_twice !! py "corner_1" =
  snd <$> last (List.filter (λ p, bool_decide (p.1 = py "corner_1"))
                  [(py "corner_1", py "(3,5)-1"); (py "corner_2", py "3-5-1");
                   (py "corner_1", py "5,3,1")]).
Proof.
  apply (corner_last_row_wins corner_page_twice
           [corner_row_of (py "1") (py "(3,5)-1");
            element (Ok []) [("td"%string, [text_element (py "-")])];
            corner_row_of (py "2") (py "3-5-1");
            corner_row_of (py "1") (py "5,3,1")]); reflexivity.
Defined.

(** ** The lap table *)
Section LapMore.

(** The three states in which [lap_rows] can leave an empty mapping. *)
Lemma lap_rows_states (rows : list Element) :
  (lap_rows rows ∅).1 = ∅ ∨
  (∃ ds cs : list pystr,
      (lap_rows rows ∅).1
      = <[py "cumulative_times" := cs]> (<[py "distances" := ds]> ∅)) ∨
  (∃ ds cs ts : list pystr,
      (lap_rows rows ∅).1
      = <[py "interval_times" := ts]>
          (<[py "cumulative_times" := cs]> (<[py "distances" := ds]> ∅))).
Proof.
  unfold lap_rows.
  destruct rows as [|r0 [|r1 [|r2 rest]]]; cbn [length Nat.leb].
  - by left.
  - rewrite run_bind. unfold await.
    destruct (row_texts [r0] 0 "th") as [ds|e]; by left.
  - rewrite run_bind. unfold await at 1.
    destruct (row_texts [r0; r1] 0 "th") as [ds|e]; [|by left].
    cbn iota beta. rewrite !run_bind. unfold await.
    destruct (row_texts [r0; r1] 1 "td") as [cs|e]; [|by left].
    right. left. by exists ds, cs.
  - rewrite run_bind. unfold await at 1.
    destruct (row_texts (r0 :: r1 :: r2 :: rest) 0 "th") as [ds|e]; [|by left].
    cbn iota beta. rewrite !run_bind. unfold await at 1.
    destruct (row_texts (r0 :: r1 :: r2 :: rest) 1 "td") as [cs|e]; [|by left].
    cbn iota beta. rewrite !run_bind. cbn [set_item]. rewrite !run_bind.
    unfold await.
    destruct (row_texts (r0 :: r1 :: r2 :: rest) 2 "td") as [ts|e].
    + right. right. by exists ds, cs, ts.
    + right. left. by exists ds, cs.
Qed.

Lemma lap_body_states (page : Page.t) :
  extract_lap_times page = ∅ ∨
  (∃ ds cs : list pystr,
      extract_lap_times page
      = <[py "cumulative_times" := cs]> (<[py "distances" := ds]> ∅)) ∨
  (∃ ds cs ts : list pystr,
      extract_lap_times page
      = <[py "interval_times" := ts]>
          (<[py "cumulative_times" := cs]> (<[py "distances" := ds]> ∅))).
Proof.
  unfold extract_lap_times, guarded, lap_body. rewrite run_bind. unfold await.
  destruct (Page.query_selector page "table.Race_HaronTime") as [[table|]|e];
    [|by left..].
  rewrite run_bind.
  destruct (query_selector_all table "tbody tr") as [rows|e]; [|by left].
  apply lap_rows_states.
Qed.

(** X13: on every page the lap mapping has [distances] exactly when it has
  [cumulative_times], has [interval_times] only together with them, and
  has no other key. *)
Theorem lap_keys_go_together (page : Page.t) :
  (is_Some (extract_lap_times page !! py "distances")
     ↔ is_Some (extract_lap_times page !! py "cumulative_times")) ∧
  (is_Some (extract_lap_times page !! py "interval_times")
     → is_Some (extract_lap_times page !! py "distances")) ∧
  (∀ k : pystr, is_Some (extract_lap_times page !! k) → k ∈ lap_keys).
Proof.
  destruct (lap_body_states page)
    as [->|[(ds & cs & ->)|(ds & cs & ts & ->)]].
  - rewrite !lookup_empty. split; [done|]. split; [done|].
    intros k [? Hk]. by rewrite lookup_empty in Hk.
  - rewrite lookup_insert_ne by (intros E; py_discriminate).
    rewrite !lookup_insert_eq.
    rewrite !lookup_insert_ne by (intros E; py_discriminate).
    rewrite lookup_empty. split; [done|]. split; [by intros [? ?]|].
    intros k [v Hk].
    apply lookup_insert_Some in Hk as [[<- _]|[_ Hk]];
      [apply (bool_decide_unpack _); by vm_compute|].
    apply lookup_insert_Some in Hk as [[<- _]|[_ Hk]];
      [apply (bool_decide_unpack _); by vm_compute|].
    by rewrite lookup_empty in Hk.
  - rewrite !(lookup_insert_ne _ (py "interval_times"))
      by (intros E; py_discriminate).
    rewrite (lookup_insert_ne _ (py "cumulative_times") (py "distances"))
      by (intros E; py_discriminate).
    rewrite !lookup_insert_eq. split; [done|]. split; [done|].
    intros k [v Hk].
    apply lookup_insert_Some in Hk as [[<- _]|[_ Hk]];
      [apply (bool_decide_unpack _); by vm_compute|].
    apply lookup_insert_Some in Hk as [[<- _]|[_ Hk]];
      [apply (bool_decide_unpack _); by vm_compute|].
    apply lookup_insert_Some in Hk as [[<- _]|[_ Hk]];
      [apply (bool_decide_unpack _); by vm_compute|].
    by rewrite lookup_empty in Hk.
Qed.

(** X14: on a lap table with at least three rows read without an
  exception, the three values are the header texts of row 0 and the cell
  texts of rows 1 and 2; rows after the third are not read. *)
Theorem lap_times_values (page : Page.t) (table : Element) (rows : list Element)
    (ds cs ts : list pystr) :
  Page.query_selector page "table.Race_HaronTime" = Ok (Some table) →
  query_selector_all table "tbody tr" = Ok rows →
  (3 ≤ length rows)%nat →
  row_texts rows 0 "th" = Ok ds →
  row_texts rows 1 "td" = Ok cs →
  row_texts rows 2 "td" = Ok ts →
  extract_lap_times page
  = <[py "interval_times" := ts]>
      (<[py "cumulative_times" := cs]> (<[py "distances" := ds]> ∅)).
Proof.
  intros Hq Hr Hlen Hds Hcs Hts. unfold extract_lap_times, guarded.
  rewrite (lap_body_run page table rows ∅ Hq Hr). unfold lap_rows.
  destruct rows as [|r0 [|r1 [|r2 rest]]]; simpl in Hlen; try lia.
  cbn [length Nat.leb]. rewrite run_bind. unfold await at 1. rewrite Hds.
  cbn iota beta. rewrite !run_bind. unfold await at 1. rewrite Hcs.
  cbn iota beta. rewrite !run_bind. cbn [set_item]. rewrite !run_bind.
  unfold await. by rewrite Hts.
Qed.

(** X15: when the second row of the lap table raises, the distances read
  from the first row are not stored: the lap mapping is empty. *)
Theorem lap_second_row_failure_drops_distances (page : Page.t) (table : Element)
    (rows : list Element) (ds : list pystr) (e : exn) :
  Page.query_selector page "table.Race_HaronTime" = Ok (Some table) →
  query_selector_all table "tbody tr" = Ok rows →
  (2 ≤ length rows)%nat →
  row_texts rows 0 "th" = Ok ds →
  row_texts rows 1 "td" = Raise e →
  extract_lap_times page = ∅ ∧ (lap_body page ∅).2 = Raise e.
Proof.
  intros Hq Hr Hlen Hds Hcs. unfold extract_lap_times, guarded.
  rewrite (lap_body_run page table rows ∅ Hq Hr). unfold lap_rows.
  destruct rows as [|r0 [|r1 rest]]; simpl in Hlen; try lia.
  cbn [length Nat.leb]. rewrite run_bind. unfold await at 1. rewrite Hds.
  cbn iota beta. rewrite !run_bind. unfold await at 1. by rewrite Hcs.
Qed.
End LapMore.

(** [lap_times_values] on an example. *)
Lemma lap_times_values_witness :
  extract_lap_times lap_page_five
  = <[py "interval_times" := [py "12.5"; py "11.1"]]>
      (<[py "cumulative_times" := [py "12.5"; py "23.6"]]>
         (<[py "distances" := [py "200m"; py "400m"]]> ∅)).
Proof.
  apply (lap_times_values lap_page_five
           (element (Ok [])
              [("tbody tr"%string,
                [lap_row_of "th" [py "200m"; py "400m"];
                 lap_row_of "td" [py "12.5"; py "23.6"];
                 lap_row_of "td" [py "12.5"; py "11.1"];
                 lap_row_of "td" [py "x"];
                 lap_row_of "td" [py "y"]])])
           [lap_row_of "th" [py "200m"; py "400m"];
            lap_row_of "td" [py "12.5"; py "23.6"];
            lap_row_of "td" [py "12.5"; py "11.1"];
            lap_row_of "td" [py "x"];
            lap_row_of "td" [py "y"]]); try reflexivity.
  simpl. lia.
Defined.

(** [lap_second_row_failure_drops_distances] on an example. *)
Lemma lap_second_row_failure_drops_distances_witness :
  extract_lap_times lap_page_second_failing = ∅ ∧
  (lap_body lap_page_second_failing ∅).2 = Raise detached.
Proof.
  apply (lap_second_row_failure_drops_distances lap_page_second_failing
           (element (Ok [])
              [("tbody tr"%string,
                [lap_row_of "th" [py "200m"; py "400m"];
                 detached_element;
                 lap_row_of "td" [py "12.5"; py "11.1"]])])
           [lap_row_of "th" [py "200m"; py "400m"];
            detached_element;
            lap_row_of "td" [py "12.5"; py "11.1"]]
           [py "200m"; py "400m"] detached); try reflexivity.
  simpl. lia.
Defined.

(** ** The run *)
Section RunMore.
Context `{PythonRuntime}.


(** X16: a record that [scrape_race_data] returns is made of what the
  extractors give on the page that was opened and navigated to, and the
  browser was closed without an exception. *)
Theorem scraped_record_parts (p : Playwright) (url : pystr) (r : RaceRecord) :
  scrape_race_data p url = Ok r →
  ∃ (browser : Browser) (page : Page.t),
    launch p = Ok browser ∧ new_page browser = Ok page ∧
    Page.goto page url = Ok () ∧ close browser = Ok () ∧
    race_url r = url ∧
    race_id r = extract_race_id url ∧
    race_type r = detect_race_type url ∧
    race_info r = extract_race_info page (detect_race_type url) ∧
    extract_horses_data page (detect_race_type url) = Ok (horses r) ∧
    corner_passing_order r = extract_corner_data page ∧
    lap_times r = extract_lap_times page.
Proof.
  unfold scrape_race_data.
  destruct (launch p) as [browser|e] eqn:Hl; [|done]. rewrite bind_Ok.
  destruct (new_page browser) as [page|e] eqn:Hn; [|done]. rewrite bind_Ok.
  destruct (Page.goto page url) as [[]|e] eqn:Hg.
  - rewrite bind_Ok.
    destruct (extract_horses_data page (detect_race_type url)) as [hs|e] eqn:Hh.
    + rewrite bind_Ok. unfold try_finally.
      destruct (close browser) as [[]|e] eqn:Hc; [|done].
      intros [= <-]. by exists browser, page.
    + unfold try_finally. simpl. by destruct (close browser).
  - unfold try_finally. simpl. by destruct (close browser).
Qed.







End RunMore.

(** [scraped_record_parts] on an example. *)
Lemma scraped_record_parts_witness :
  ∃ (browser : Browser) (page : Page.t),
    launch (playwright_of race_page) = Ok browser ∧ new_page browser = Ok page ∧
    Page.goto page result_url = Ok () ∧ close browser = Ok () ∧
    race_url race_page_record = result_url ∧
    race_id race_page_record = @extract_race_id ascii_runtime result_url ∧
    race_type race_page_record = detect_race_type result_url ∧
    race_info race_page_record
      = @extract_race_info ascii_runtime page (detect_race_type result_url) ∧
    extract_horses_data page (detect_race_type result_url)
      = Ok (horses race_page_record) ∧
    corner_passing_order race_page_record = extract_corner_data page ∧
    lap_times race_page_record = extract_lap_times page.
Proof.
  assert (Hs : @scrape_race_data ascii_runtime (playwright_of race_page) result_url
               = Ok race_page_record) by reflexivity.
  exact (@scraped_record_parts ascii_runtime (playwright_of race_page)
           result_url race_page_record Hs).
Defined.





